(** * Oh-Bok-Wan trading journal (app.py): shallow embedding and properties

    The journal is one Streamlit script.  Its logic is embedded here as it is
    written: Python floats are IEEE-754 binary64 values ([spec_float] with
    precision 53), Python exceptions are an error monad, the JSON answer of
    the sentiment feed and the cells of a pandas frame are dynamically typed
    Python values, and the two network feeds, the CSV codec and the host's
    clock and time zone are parameters of the development. *)

From Stdlib Require Import ZArith String Ascii List Bool Lia.
From Stdlib Require Import Floats.SpecFloat.
From stdpp Require Import base option list gmap strings.

#[local] Set Warnings "-register-all".
Local Open Scope Z_scope.

(** ** Exceptions *)

(** The exception classes the embedded code can meet.  [OtherError] stands for
    what the external services raise on their own (connection errors, decoding
    errors, parser errors). *)
Inductive exn : Type :=
| ZeroDivisionError
| OverflowError
| KeyError
| IndexError
| TypeError
| ValueError
| OtherError.

(** A computation that returns a value or raises. *)
Inductive res (A : Type) : Type :=
| Ok (a : A)
| Raise (e : exn).
Arguments Ok {A} a.
Arguments Raise {A} e.

#[global] Instance res_ret : MRet res := fun A a => Ok a.
#[global] Instance res_bind : MBind res := fun A B f m =>
  match m with
  | Ok a => f a
  | Raise e => Raise e
  end.
#[global] Instance res_fmap : FMap res := fun A B f m =>
  match m with
  | Ok a => Ok (f a)
  | Raise e => Raise e
  end.

(** [try: body except Exception: handler]. *)
Definition try_except {A : Type} (body : res A) (handler : exn -> res A) : res A :=
  match body with
  | Ok a => Ok a
  | Raise e => handler e
  end.

Definition raises {A : Type} (m : res A) : Prop := exists e, m = Raise e.

(** ** Python floats (binary64) *)

Definition float : Type := spec_float.
Definition prec : Z := 53.
Definition emax : Z := 1024.

Definition fadd : float -> float -> float := SFadd prec emax.
Definition fsub : float -> float -> float := SFsub prec emax.
Definition fmul : float -> float -> float := SFmul prec emax.
Definition fdiv : float -> float -> float := SFdiv prec emax.
Definition fabs : float -> float := SFabs.

Definition is_zero (x : float) : bool :=
  match x with
  | S754_zero _ => true
  | _ => false
  end.

(** [x / y] on floats: Python raises where IEEE-754 would give an infinity or
    a NaN for a zero divisor. *)
Definition float_truediv (x y : float) : res float :=
  if is_zero y then Raise ZeroDivisionError else Ok (fdiv x y).

(** The correctly rounded (nearest, ties to even) binary64 value of [n / d]
    with sign [s], for [0 <= n] and [0 < d]: what the decimal-to-binary
    conversion of the interpreter computes. *)
Definition float_of_ratio (s : bool) (n d : Z) : float :=
  let '(mz, ez, lz) := SFdiv_core_binary prec emax n 0 d 0 in
  binary_round_aux prec emax s mz ez lz.

(** Conversion of a Python int in mixed arithmetic: correctly rounded, and an
    [OverflowError] when the int is too large for a float. *)
Definition float_of_int (z : Z) : res float :=
  match binary_normalize prec emax z 0 false with
  | S754_infinity _ => Raise OverflowError
  | f => Ok f
  end.

(** [x * z] for a float [x] and an int [z]. *)
Definition float_mul_int (x : float) (z : Z) : res float :=
  y ← float_of_int z; mret (fmul x y).

(** Comparison of a float with an int is exact in Python (no conversion of the
    int); [None] when the float is a NaN. *)
Definition compare_float_int (x : float) (z : Z) : option comparison :=
  match x with
  | S754_nan => None
  | S754_infinity s => Some (if s then Lt else Gt)
  | S754_zero _ => Some (0 ?= z)
  | S754_finite s m e =>
      let v := if s then Zneg m else Zpos m in
      Some (if 0 <=? e then v * 2 ^ e ?= z else v ?= z * 2 ^ (- e))
  end.

(** [x > z] and [x == z]. *)
Definition float_gt_int (x : float) (z : Z) : bool :=
  match compare_float_int x z with
  | Some Gt => true
  | _ => false
  end.

Definition float_eq_int (x : float) (z : Z) : bool :=
  match compare_float_int x z with
  | Some Eq => true
  | _ => false
  end.

(** [x > y] on two floats. *)
Definition float_gt (x y : float) : bool := SFltb y x.

(** The nearest integer to [n / d], ties to even, for [0 <= n] and [0 < d]. *)
Definition div_half_even (n d : Z) : Z :=
  let q := n / d in
  match 2 * (n mod d) ?= d with
  | Lt => q
  | Gt => q + 1
  | Eq => if Z.even q then q else q + 1
  end.

(** [round(x, 2)] on a float: the exact binary value is rounded to two
    decimals (ties to even) and the decimal is converted back to the nearest
    float; infinities, NaN and zeros are returned unchanged. *)
Definition round2 (x : float) : float :=
  match x with
  | S754_finite s m e =>
      let cents :=
        if 0 <=? e then 100 * Zpos m * 2 ^ e
        else div_half_even (100 * Zpos m) (2 ^ (- e)) in
      float_of_ratio s cents 100
  | _ => x
  end.

(** A decimal literal [n / 10^k] as the interpreter reads it. *)
Definition decimal (n : Z) (k : Z) : float :=
  float_of_ratio (n <? 0) (Z.abs n) (10 ^ k).

(** ** Numbers that are an int or a float *)

(** [risk], [reward] and [rr_ratio] are the int [0] on one branch and a float
    on the other. *)
Inductive num : Type :=
| NInt (z : Z)
| NFloat (f : float).

Definition num_gt_int (a : num) (z : Z) : bool :=
  match a with
  | NInt n => z <? n
  | NFloat f => float_gt_int f z
  end.

Definition num_to_float (a : num) : res float :=
  match a with
  | NInt n => float_of_int n
  | NFloat f => Ok f
  end.

(** [a / b]: true division.  Two ints divide exactly and round once; a float
    operand converts the other one. *)
Definition num_truediv (a b : num) : res num :=
  match a, b with
  | NInt x, NInt y =>
      if y =? 0 then Raise ZeroDivisionError
      else match float_of_ratio (xorb (x <? 0) (y <? 0)) (Z.abs x) (Z.abs y) with
           | S754_infinity _ => Raise OverflowError
           | f => Ok (NFloat f)
           end
  | _, _ =>
      x ← num_to_float a; y ← num_to_float b; q ← float_truediv x y; mret (NFloat q)
  end.

(** [round(a, 2)]: an int is returned as it is. *)
Definition num_round2 (a : num) : num :=
  match a with
  | NInt n => NInt n
  | NFloat f => NFloat (round2 f)
  end.

(** ** Dynamically typed values *)

(** What [response.json()] returns and what a cell of a pandas frame holds.
    A dict keeps its keys in insertion order; a [datetime] is its date (the
    proleptic Gregorian ordinal of the day) and its time of day; [PNaT] is the
    missing value of a datetime column. *)
Inductive pyval : Type :=
| PNone
| PBool (b : bool)
| PInt (z : Z)
| PFloat (f : float)
| PStr (s : string)
| PList (l : list pyval)
| PDict (d : list (string * pyval))
| PDatetime (day : Z) (time_of_day : Z)
| PNaT.

(** The missing-value marker of pandas. *)
Definition NaN : pyval := PFloat S754_nan.

Definition num_val (a : num) : pyval :=
  match a with
  | NInt n => PInt n
  | NFloat f => PFloat f
  end.

Fixpoint dict_get (d : list (string * pyval)) (key : string) : option pyval :=
  match d with
  | [] => None
  | (k, v) :: rest => if String.eqb k key then Some v else dict_get rest key
  end.

(** [v[key]] for a string key. *)
Definition subscript (v : pyval) (key : string) : res pyval :=
  match v with
  | PDict d =>
      match dict_get d key with
      | Some x => Ok x
      | None => Raise KeyError
      end
  | _ => Raise TypeError
  end.

Fixpoint chars (s : string) : list pyval :=
  match s with
  | EmptyString => []
  | String c rest => PStr (String c EmptyString) :: chars rest
  end.

(** What [for item in v] iterates over: the elements of a list, the keys of a
    dict, the characters of a string; other values are not iterable. *)
Definition iterate (v : pyval) : res (list pyval) :=
  match v with
  | PList l => Ok l
  | PDict d => Ok (map (fun kv => PStr (fst kv)) d)
  | PStr s => Ok (chars s)
  | _ => Raise TypeError
  end.

(** [v[0]]. *)
Definition item0 (v : pyval) : res pyval :=
  match v with
  | PList l =>
      match l with
      | x :: _ => Ok x
      | [] => Raise IndexError
      end
  | PStr s =>
      match chars s with
      | x :: _ => Ok x
      | [] => Raise IndexError
      end
  | PDict _ => Raise KeyError
  | _ => Raise TypeError
  end.

(** [needle in haystack] on strings. *)
Definition contains (needle haystack : string) : bool :=
  match String.index 0 needle haystack with
  | Some _ => true
  | None => false
  end.

(** ** Dates *)

(** [date.max.toordinal()]. *)
Definition max_ordinal : Z := 3652059.

(** [d + timedelta(days = n)] on a date. *)
Definition date_add (d n : Z) : res Z :=
  if (1 <=? d + n) && (d + n <=? max_ordinal) then Ok (d + n) else Raise OverflowError.

(** ** Frames *)

(** A pandas frame, row by row: the column labels and, for every row, one cell
    per column.  The row index is positional ([ignore_index]) throughout. *)
Record DataFrame : Type := {
  columns : list string;
  rows : list (list pyval)
}.

(** [pd.DataFrame()]. *)
Definition empty_frame : DataFrame := {| columns := []; rows := [] |}.

(** [df.empty]: one of the two axes has length zero. *)
Definition df_empty (df : DataFrame) : bool :=
  match columns df, rows df with
  | [], _ => true
  | _, [] => true
  | _, _ => false
  end.

(** [pd.DataFrame([data])] for one dict. *)
Definition frame_of_record (data : list (string * pyval)) : DataFrame :=
  {| columns := data.*1; rows := [data.*2] |}.

(** Position of a label among the columns (the first one). *)
Definition col_index (c : string) (cols : list string) : option nat :=
  fst <$> list_find (fun x => x = c) cols.

(** The cell of a row under the label [c], NaN when the frame has no such
    column. *)
Definition cell (cols : list string) (row : list pyval) (c : string) : pyval :=
  match col_index c cols with
  | Some i => default NaN (row !! i)
  | None => NaN
  end.

(** The dtype of a column.  pandas keeps one per column: int64, float64,
    datetime64 or object (strings and everything mixed). *)
Inductive dtype : Type := DInt | DFloat | DDatetime | DObject.

#[global] Instance dtype_eq_dec : EqDecision dtype.
Proof. solve_decision. Defined.

(** The ints of an int64 column; the model keeps a larger one as an object. *)
Definition int64 (z : Z) : bool := (- 2 ^ 63 <=? z) && (z <? 2 ^ 63).

(** The dtype that pandas infers for one value. *)
Definition cell_dtype (v : pyval) : dtype :=
  match v with
  | PInt z => if int64 z then DInt else DObject
  | PFloat _ => DFloat
  | PDatetime _ _ | PNaT => DDatetime
  | _ => DObject
  end.

(** The dtype that holds all the cells of a column: theirs when they agree. *)
Definition column_dtype (cells : list pyval) : dtype :=
  match cells with
  | [] => DObject
  | v :: rest =>
      if forallb (fun w => bool_decide (cell_dtype w = cell_dtype v)) rest
      then cell_dtype v else DObject
  end.

(** The dtype of the column [c] of a frame, [None] when it has no such
    column. *)
Definition part_dtype (df : DataFrame) (c : string) : option dtype :=
  if bool_decide (c ∈ columns df) then
    Some (column_dtype ((fun row => cell (columns df) row c) <$> rows df))
  else None.

(** The dtype of a column of [pd.concat]: ints become floats when they meet
    floats or a frame without the column (whose rows get NaN there). *)
Definition common_dtype (a b : option dtype) : dtype :=
  match a, b with
  | Some DInt, Some DInt => DInt
  | Some DInt, Some DFloat | Some DFloat, Some DInt
  | Some DFloat, Some DFloat => DFloat
  | Some DDatetime, Some DDatetime => DDatetime
  | Some _, Some _ => DObject
  | Some DInt, None | None, Some DInt => DFloat
  | Some d, None | None, Some d => d
  | None, None => DObject
  end.

(** What fills a column of that dtype where a frame lacks it. *)
Definition missing (d : dtype) : pyval :=
  match d with
  | DDatetime => PNaT
  | _ => NaN
  end.

(** A cell moved into a column of dtype [d]: an int in a float column is
    converted (to the nearest float, an int64 is never out of range). *)
Definition astype (d : dtype) (v : pyval) : pyval :=
  match d, v with
  | DFloat, PInt z => PFloat (binary_normalize prec emax z 0 false)
  | _, _ => v
  end.

(** The rows of [df] laid out over the labels [cols], the column [c] taking
    the dtype [dt c]. *)
Definition lay_out (dt : string -> dtype) (cols : list string) (df : DataFrame) : list (list pyval) :=
  (fun row =>
     (fun c => if bool_decide (c ∈ columns df)
               then astype (dt c) (cell (columns df) row c)
               else missing (dt c)) <$> cols) <$> rows df.

(** [pd.concat([df1, df2], ignore_index=True)] for two frames with distinct
    labels each: the union of the columns in order of appearance, the rows of
    [df1] then those of [df2], every column in the dtype common to its two
    parts, the missing value where a frame lacks a column. *)
Definition concat (df1 df2 : DataFrame) : DataFrame :=
  let cols :=
    columns df1 ++ filter (fun c => c ∉ columns df1) (columns df2) in
  let dt c := common_dtype (part_dtype df1 c) (part_dtype df2 c) in
  {| columns := cols; rows := lay_out dt cols df1 ++ lay_out dt cols df2 |}.

(** A cell and what it can have become in a later frame: itself, or the float
    of an int whose column was upcast. *)
Definition upcast (v v' : pyval) : Prop :=
  v' = v \/ exists z, v = PInt z /\ v' = PFloat (binary_normalize prec emax z 0 false).

(** [c in df.columns]. *)
Definition has_column (c : string) (df : DataFrame) : bool :=
  bool_decide (c ∈ columns df).

(** [df[c]], the cells of one column. *)
Definition get_column (c : string) (df : DataFrame) : res (list pyval) :=
  match col_index c (columns df) with
  | Some i => Ok ((fun row => default NaN (row !! i)) <$> rows df)
  | None => Raise KeyError
  end.

(** [df[c] = values] for a column the frame has: the lengths must agree. *)
Definition set_column (c : string) (values : list pyval) (df : DataFrame) : res DataFrame :=
  match col_index c (columns df) with
  | Some i =>
      if bool_decide (length values = length (rows df)) then
        Ok {| columns := columns df;
              rows := zip_with (fun row v => <[i := v]> row) (rows df) values |}
      else Raise ValueError
  | None => Raise KeyError
  end.

(** ** Signs *)

(** [x < z] for a float and an int, and for a number that is either. *)
Definition float_lt_int (x : float) (z : Z) : bool :=
  match compare_float_int x z with
  | Some Lt => true
  | _ => false
  end.

Definition num_lt_int (a : num) (z : Z) : bool :=
  match a with
  | NInt n => n <? z
  | NFloat f => float_lt_int f z
  end.

(** The sign bit of [x] is [s], or [x] is a NaN. *)
Definition has_sign (s : bool) (x : float) : Prop :=
  match x with
  | S754_zero s' | S754_infinity s' | S754_finite s' _ _ => s' = s
  | S754_nan => True
  end.

(** A zero of either sign, or a NaN: what is neither above nor below zero. *)
Definition nought (x : float) : bool :=
  match x with
  | S754_zero _ | S754_nan => true
  | _ => false
  end.

(** [y] is [-x], or both are noughts. *)
Definition mirrored (x y : float) : Prop :=
  y = SFopp x \/ (nought x = true /\ nought y = true).

(** ** The trade computation (submit handler, step 1) *)

(** What the handler computes from the form before it looks anything up. *)
Record metrics : Type := {
  pnl_rate : float;
  pnl_status : string;
  risk : num;
  reward : num;
  rr_ratio : num
}.

(** Lines 102-107: the leveraged percentage move and its classification. *)
Definition profit (position : string) (entry_price exit_price : float) (leverage : Z) : res (float * string) :=
  if contains "Long" position then
    q ← float_truediv (fsub exit_price entry_price) entry_price;
    l ← float_mul_int q leverage;
    pnl_rate ← float_mul_int l 100;
    mret (pnl_rate, if float_gt_int pnl_rate 0 then "Win" else "Lose")
  else
    q ← float_truediv (fsub entry_price exit_price) entry_price;
    l ← float_mul_int q leverage;
    pnl_rate ← float_mul_int l 100;
    mret (pnl_rate, if float_gt_int pnl_rate 0 then "Win" else "Lose").

(** Lines 109-111: risk, reward and their ratio. *)
Definition risk_reward (entry_price stop_loss take_profit : float) : res (num * num * num) :=
  let risk :=
    if float_gt_int stop_loss 0 then NFloat (fabs (fsub entry_price stop_loss))
    else NInt 0 in
  let reward :=
    if float_gt_int take_profit 0 then NFloat (fabs (fsub take_profit entry_price))
    else NInt 0 in
  rr_ratio ← (if num_gt_int risk 0 then num_truediv reward risk else mret (NInt 0));
  mret (risk, reward, rr_ratio).

Definition compute (position : string)
    (entry_price exit_price stop_loss take_profit : float) (leverage : Z) : res metrics :=
  '(pnl_rate, pnl_status) ← profit position entry_price exit_price leverage;
  '(risk, reward, rr_ratio) ← risk_reward entry_price stop_loss take_profit;
  mret {| pnl_rate := pnl_rate; pnl_status := pnl_status;
          risk := risk; reward := reward; rr_ratio := rr_ratio |}.

(** The float an int stands for in mixed arithmetic, where it has one. *)
Definition num_float (a : num) : float :=
  match a with
  | NInt n => binary_normalize prec emax n 0 false
  | NFloat f => f
  end.

(** The float [100.0], which the int literal [100] converts to. *)
Definition hundred : float := S754_finite false 7036874417766400 (-46).

(** *** The computation as the specification words it

    These follow the specification's formulas, not the code; the
    properties below compare the code with them. *)

(** [(exit - entry) / entry * leverage * 100] and
    [(entry - exit) / entry * leverage * 100], evaluated left to right, for a
    leverage already converted to a float. *)
Definition spec_pnl_long (entry exit leverage : float) : float :=
  fmul (fmul (fdiv (fsub exit entry) entry) leverage) hundred.

Definition spec_pnl_short (entry exit leverage : float) : float :=
  fmul (fmul (fdiv (fsub entry exit) entry) leverage) hundred.

(** Win if the percentage is above zero, else Lose. *)
Definition spec_result (p : float) : string :=
  if float_gt_int p 0 then "Win" else "Lose".

(** [|entry - stop| if stop > 0 else 0] and [|take - entry| if take > 0 else 0]. *)
Definition spec_risk (entry stop : float) : num :=
  if float_gt_int stop 0 then NFloat (fabs (fsub entry stop)) else NInt 0.

Definition spec_reward (entry take : float) : num :=
  if float_gt_int take 0 then NFloat (fabs (fsub take entry)) else NInt 0.

(** [reward / risk if risk > 0 else 0]. *)
Definition spec_ratio (reward risk : num) : num :=
  if num_gt_int risk 0 then NFloat (fdiv (num_float reward) (num_float risk))
  else NInt 0.

(** ** The outside world *)

(** One row of the daily candles of the price feed: the frame is taken with
    plain [Open] and [Close] columns, so that [btc['Close'].iloc[0]] is a
    float. *)
Record candle : Type := {
  open_price : float;
  close_price : float
}.

(** The answer to [requests.get]: decoding its body as JSON may raise. *)
Record response : Type := {
  json : res pyval
}.

(** The two feeds as the host sees them at one moment.  [yf_download symbol
    start stop] is [yf.download(symbol, start=start, end=stop)], the daily
    candles from [start] up to [stop], [stop] excluded. *)
Record network : Type := {
  requests_get : string -> res response;
  yf_download : string -> Z -> Z -> res (list candle)
}.

Definition fng_url : string := "https://api.alternative.me/fng/?limit=0".

(** [int(f)] on a float: truncation toward zero. *)
Definition int_of_float (f : float) : res Z :=
  match f with
  | S754_nan => Raise ValueError
  | S754_infinity _ => Raise OverflowError
  | S754_zero _ => Ok 0
  | S754_finite s m e =>
      let n := if 0 <=? e then Zpos m * 2 ^ e else Zpos m / 2 ^ (- e) in
      Ok (if s then - n else n)
  end.

(** What [get_market_context] returns: the index value, its label and the
    trend of the day. *)
Definition context : Type := Z * pyval * string.

(** One entry of the time-to-live cache that [st.cache_data] keeps. *)
Record cache_entry : Type := {
  cached : context;
  stored_at : Z
}.

(** [ttl=3600], in seconds. *)
Definition ttl : Z := 3600.

(** What the form holds when it is submitted. *)
Record form : Type := {
  ticker : string;
  date : Z;
  time : Z;
  position : string;
  leverage : Z;
  entry_price : float;
  exit_price : float;
  stop_loss : float;
  take_profit : float
}.

(** The labels of a trade record, in the order of the dict's keys. *)
Definition trade_columns : list string :=
  ["진입일시"; "종목"; "포지션"; "레버리지"; "수익률(%)";
   "결과"; "손익비"; "공포지수"; "시장심리"; "비트추세"].

(** The [trade_data] dict of the handler. *)
Definition trade_data (f : form) (m : metrics) (ctx : context) : list (string * pyval) :=
  let '(fng_value, fng_text, btc_trend) := ctx in
  [ ("진입일시", PDatetime (date f) (time f));
    ("종목", PStr (ticker f));
    ("포지션", PStr (position f));
    ("레버리지", PInt (leverage f));
    ("수익률(%)", PFloat (round2 (pnl_rate m)));
    ("결과", PStr (pnl_status m));
    ("손익비", num_val (num_round2 (rr_ratio m)));
    ("공포지수", PInt fng_value);
    ("시장심리", fng_text);
    ("비트추세", PStr btc_trend) ].

(** What the user sees after a submission: the four metrics of a saved trade,
    or the request to enter the prices. *)
Inductive outcome : Type :=
| Saved (m : metrics) (ctx : context)
| PricesMissing.

(** What outlives one run of the script: the file at [FILE_PATH], [None] when
    it does not exist, and the memo of [get_market_context]. *)
Record state (Content : Type) : Type := {
  file : option Content;
  cache : gmap Z cache_entry
}.
Arguments file {Content} s.
Arguments cache {Content} s.

(** ** A sample world

    Concrete parameters to run the embedding on: decimal strings, UTC days, a
    file that is either garbled or holds a table, a file of CSV text, and
    feeds with a fixed answer. *)

Fixpoint digits_value (s : string) (acc : Z) : res Z :=
  match s with
  | EmptyString => Ok acc
  | String c rest =>
      let n := Z.of_nat (nat_of_ascii c) - 48 in
      if (0 <=? n) && (n <=? 9) then digits_value rest (10 * acc + n)
      else Raise ValueError
  end.

Definition sample_int_of_str (s : string) : res Z :=
  match s with
  | EmptyString => Raise ValueError
  | String "-" rest =>
      match rest with
      | EmptyString => Raise ValueError
      | _ => Z.opp <$> digits_value rest 0
      end
  | _ => digits_value s 0
  end.

(** The ordinal of 1970-01-01 is 719163. *)
Definition utc_date (ts : Z) : res Z := Ok (719163 + ts / 86400).

Inductive sample_file : Type :=
| Garbled
| Table (df : DataFrame).

Definition sample_read_csv (c : sample_file) : res DataFrame :=
  match c with
  | Garbled => Raise OtherError
  | Table df => Ok df
  end.

Definition sample_to_datetime (col : list pyval) : res (list pyval) := Ok col.

Definition fng_item (timestamp value label : string) : pyval :=
  PDict [("value", PStr value); ("value_classification", PStr label);
         ("timestamp", PStr timestamp)].

(** Both feeds answer: the series [items], the candles [btc]. *)
Definition feeds (items : list pyval) (btc : list candle) : network :=
  {| requests_get := fun _ => Ok {| json := Ok (PDict [("name", PStr "Fear and Greed Index"); ("data", PList items)]) |};
     yf_download := fun _ _ _ => Ok btc |}.

(** The sentiment feed cannot be reached; the price feed answers. *)
Definition sentiment_down (btc : list candle) : network :=
  {| requests_get := fun _ => Raise OtherError;
     yf_download := fun _ _ _ => Ok btc |}.

(** 2024-01-01 is day 738886 and starts at 1704067200. *)
Definition sample_items : list pyval :=
  [ fng_item "1704240000" "70" "Greed";
    fng_item "1704153600" "71" "Greed";
    fng_item "1704067200" "65" "Greed" ].

Definition sample_btc : list candle :=
  [ {| open_price := decimal 42280 0; close_price := decimal 44167 0 |};
    {| open_price := decimal 44167 0; close_price := decimal 44957 0 |} ].

Definition sample_form : form :=
  {| ticker := "BTC/USDT"; date := 738886; time := 36000;
     position := "Long"; leverage := 2;
     entry_price := decimal 100 0; exit_price := decimal 110 0;
     stop_loss := decimal 0 0; take_profit := decimal 0 0 |}.

(** The journal before its first record, and the moment of a submission. *)
Definition fresh_state : state sample_file := {| file := None; cache := ∅ |}.
Definition sample_now : Z := 1704100000.

(** A move of 0.004 on a price of 100. *)
Definition small_win : form :=
  {| ticker := "BTC/USDT"; date := 738886; time := 36000;
     position := "Long"; leverage := 1;
     entry_price := decimal 100 0; exit_price := decimal 100004 3;
     stop_loss := decimal 0 0; take_profit := decimal 0 0 |}.

(** ** A sample CSV codec

    A second concrete file format, closer to what pandas writes than the table
    above: the file is text.  [csv_write] writes a missing value and the empty
    string as the same empty field, a number as decimal digits and a datetime
    as an ISO timestamp; [csv_read] guesses the type of every column from its
    fields.  It stands for the codec of pandas in what matters to the
    properties below: what is written is text, and what is read is what the
    text looks like, not what was written. *)

(** The fields of the header line, then those of every other line.  Quoting
    is transparent: a field is the text between two separators, unquoted. *)
Definition csv_file : Type := list (list string).

Fixpoint digits_of (fuel : nat) (n : Z) (acc : string) : string :=
  match fuel with
  | O => acc
  | S fuel' =>
      let acc' := String (ascii_of_nat (Z.to_nat (48 + n mod 10))) acc in
      if n <? 10 then acc' else digits_of fuel' (n / 10) acc'
  end.

(** A natural number in decimal. *)
Definition nat_text (n : Z) : string :=
  digits_of (S (Z.to_nat (Z.log2 n))) n EmptyString.

(** [str(z)]. *)
Definition int_text (z : Z) : string :=
  if z <? 0 then String "-" (nat_text (- z)) else nat_text z.

(** Zeros in front, up to [width] characters. *)
Definition zero_padded (width : nat) (s : string) : string :=
  String.append (string_of_list_ascii (replicate (width - String.length s) "0"%char)) s.

Fixpoint strip_zeros (rev_digits : list ascii) : list ascii :=
  match rev_digits with
  | "0"%char :: rest => strip_zeros rest
  | _ => rev_digits
  end.

(** The digits after the point of [n / 10 ^ k], without the zeros at the
    end; one zero when there is nothing else. *)
Definition fraction_text (n : Z) (k : nat) : string :=
  match strip_zeros (rev (list_ascii_of_string (zero_padded k (nat_text n)))) with
  | [] => "0"
  | ds => string_of_list_ascii (rev ds)
  end.

(** A float with all the digits of its binary value; NaN is the empty
    field. *)
Definition float_text (x : float) : string :=
  match x with
  | S754_nan => EmptyString
  | S754_infinity s => if s then "-inf" else "inf"
  | S754_zero s => if s then "-0.0" else "0.0"
  | S754_finite s m e =>
      let sign := if s then "-" else EmptyString in
      let '(whole, fraction) :=
        if 0 <=? e then (Zpos m * 2 ^ e, "0")
        else (Zpos m / 2 ^ (- e),
              fraction_text ((Zpos m mod 2 ^ (- e)) * 5 ^ (- e)) (Z.to_nat (- e))) in
      String.append sign (String.append (nat_text whole) (String "." fraction))
  end.

(** The civil date of a proleptic Gregorian ordinal (day 1 is 0001-01-01). *)
Definition civil_of_ordinal (day : Z) : Z * Z * Z :=
  let z := day + 305 in
  let era := z / 146097 in
  let doe := z mod 146097 in
  let yoe := (doe - doe / 1460 + doe / 36524 - doe / 146096) / 365 in
  let doy := doe - (365 * yoe + yoe / 4 - yoe / 100) in
  let mp := (5 * doy + 2) / 153 in
  let d := doy - (153 * mp + 2) / 5 + 1 in
  let m := if mp <? 10 then mp + 3 else mp - 9 in
  let y := yoe + era * 400 + (if m <=? 2 then 1 else 0) in
  (y, m, d).

Definition ordinal_of_civil (y m d : Z) : Z :=
  let y' := if m <=? 2 then y - 1 else y in
  let era := y' / 400 in
  let yoe := y' mod 400 in
  let doy := (153 * (if 2 <? m then m - 3 else m + 9) + 2) / 5 + d - 1 in
  let doe := yoe * 365 + yoe / 4 - yoe / 100 + doy in
  era * 146097 + doe - 305.

Definition date_text (day : Z) : string :=
  let '(y, m, d) := civil_of_ordinal day in
  String.append (zero_padded 4 (nat_text y))
    (String "-" (String.append (zero_padded 2 (nat_text m))
       (String "-" (zero_padded 2 (nat_text d))))).

Definition time_text (secs : Z) : string :=
  String.append (zero_padded 2 (nat_text (secs / 3600)))
    (String ":" (String.append (zero_padded 2 (nat_text (secs / 60 mod 60)))
       (String ":" (zero_padded 2 (nat_text (secs mod 60)))))).

(** A datetime column without a time of day is written as dates. *)
Definition dates_only (cells : list pyval) : bool :=
  bool_decide (column_dtype cells = DDatetime) &&
  forallb (fun v => match v with PDatetime _ t => t =? 0 | _ => true end) cells.

(** The field written for a cell.  A list or a dict is written as its [repr],
    which the sample leaves out. *)
Definition field_text (dates : bool) (v : pyval) : string :=
  match v with
  | PNone | PNaT => EmptyString
  | PBool b => if b then "True" else "False"
  | PInt z => int_text z
  | PFloat x => float_text x
  | PStr s => s
  | PList _ => "[...]"
  | PDict _ => "{...}"
  | PDatetime day t =>
      if dates then date_text day
      else String.append (date_text day) (String " " (time_text t))
  end.

(** The cells of the column at position [i]. *)
Definition column_at (rws : list (list pyval)) (i : nat) : list pyval :=
  (fun row => default NaN (row !! i)) <$> rws.

(** [df.to_csv(path, index=False)]. *)
Definition csv_write (df : DataFrame) : csv_file :=
  let dates := (fun i => dates_only (column_at (rows df) i)) <$> seq 0 (length (columns df)) in
  columns df :: ((fun row => zip_with field_text dates row) <$> rows df).

(** The fields that [read_csv] takes for a missing value. *)
Definition na_values : list string :=
  [EmptyString; "#N/A"; "#N/A N/A"; "#NA"; "-1.#IND"; "-1.#QNAN"; "-NaN"; "-nan";
   "1.#IND"; "1.#QNAN"; "<NA>"; "N/A"; "NA"; "NULL"; "NaN"; "None"; "n/a";
   "nan"; "null"].

Definition digit_of (c : ascii) : option Z :=
  let n := Z.of_nat (nat_of_ascii c) - 48 in
  if (0 <=? n) && (n <=? 9) then Some n else None.

(** The digits at the front of a text: their value, their number and what
    follows them. *)
Fixpoint leading_digits (s : string) (value : Z) (count : Z) : Z * Z * string :=
  match s with
  | EmptyString => (value, count, s)
  | String c rest =>
      match digit_of c with
      | Some n => leading_digits rest (10 * value + n) (count + 1)
      | None => (value, count, s)
      end
  end.

(** A sign in front, [true] for minus. *)
Definition leading_sign (s : string) : bool * string :=
  match s with
  | String "-" rest => (true, rest)
  | String "+" rest => (false, rest)
  | _ => (false, s)
  end.

Definition int_of_text (s : string) : option Z :=
  let '(neg, rest) := leading_sign s in
  let '(n, count, rest') := leading_digits rest 0 0 in
  match rest' with
  | EmptyString => if 0 <? count then Some (if neg then - n else n) else None
  | _ => None
  end.

(** The exponent part of a decimal: nothing, or [e] and an integer. *)
Definition exponent_of_text (s : string) : option Z :=
  match s with
  | EmptyString => Some 0
  | String c rest =>
      if bool_decide (c = "e"%char \/ c = "E"%char) then int_of_text rest else None
  end.

(** Digits, a point and digits, an exponent; read to the nearest float. *)
Definition float_of_text (s : string) : option float :=
  let '(neg, rest) := leading_sign s in
  if bool_decide (rest = "inf") then Some (S754_infinity neg) else
  let '(whole, count, rest1) := leading_digits rest 0 0 in
  let '(mantissa, count', places, rest2) :=
    match rest1 with
    | String "." after =>
        let '(m, total, rest2) := leading_digits after whole count in
        (m, total, total - count, rest2)
    | _ => (whole, count, 0, rest1)
    end in
  if 0 <? count' then
    e ← exponent_of_text rest2;
    let scale := e - places in
    Some (if 0 <=? scale then float_of_ratio neg (mantissa * 10 ^ scale) 1
          else float_of_ratio neg mantissa (10 ^ (- scale)))
  else None.

Definition bool_of_text (s : string) : option bool :=
  if bool_decide (s ∈ ["True"; "TRUE"; "true"]) then Some true
  else if bool_decide (s ∈ ["False"; "FALSE"; "false"]) then Some false
  else None.

(** What a field looks like. *)
Inductive lexeme : Type :=
| LBlank
| LInt (z : Z)
| LFloat (x : float)
| LBool (b : bool)
| LText (s : string).

Definition lex (s : string) : lexeme :=
  if bool_decide (s ∈ na_values) then LBlank else
  match int_of_text s with
  | Some z => if int64 z then LInt z else LFloat (binary_normalize prec emax z 0 false)
  | None =>
      match float_of_text s with
      | Some x => LFloat x
      | None =>
          match bool_of_text s with
          | Some b => LBool b
          | None => LText s
          end
      end
  end.

(** The cells of a column from its fields: ints when every field is one,
    floats when every field is a number or blank, booleans, and otherwise
    the fields themselves, as strings.  A blank is NaN. *)
Definition read_column (fields : list string) : list pyval :=
  let ls := lex <$> fields in
  if forallb (fun l => match l with LInt _ => true | _ => false end) ls then
    (fun l => match l with LInt z => PInt z | _ => NaN end) <$> ls
  else if forallb (fun l => match l with LInt _ | LFloat _ | LBlank => true | _ => false end) ls then
    (fun l => match l with
              | LInt z => PFloat (binary_normalize prec emax z 0 false)
              | LFloat x => PFloat x
              | _ => NaN
              end) <$> ls
  else if forallb (fun l => match l with LBool _ | LBlank => true | _ => false end) ls then
    (fun l => match l with LBool b => PBool b | _ => NaN end) <$> ls
  else
    (fun s => if bool_decide (s ∈ na_values) then NaN else PStr s) <$> fields.

(** [pd.read_csv(path)]: a file without a header line and a line with more
    fields than the header are errors; a shorter line is filled with
    blanks. *)
Definition csv_read (file : csv_file) : res DataFrame :=
  match file with
  | [] => Raise OtherError
  | header :: lines =>
      if forallb (fun line => bool_decide (length line ≤ length header)%nat) lines then
        let cols :=
          (fun i => read_column ((fun line => default EmptyString (line !! i)) <$> lines))
            <$> seq 0 (length header) in
        Ok {| columns := header;
              rows := (fun j => (fun col => default NaN (col !! j)) <$> cols)
                        <$> seq 0 (length lines) |}
      else Raise OtherError
  end.

(** Two digits and the rest. *)
Definition two_digits (s : string) : option (Z * string) :=
  match s with
  | String a (String b rest) =>
      x ← digit_of a; y ← digit_of b; Some (10 * x + y, rest)
  | _ => None
  end.

(** A time of day [HH:MM:SS], in seconds. *)
Definition time_of_text (s : string) : option Z :=
  '(h, rest) ← two_digits s;
  match rest with
  | String ":" rest1 =>
      '(m, rest2) ← two_digits rest1;
      match rest2 with
      | String ":" rest3 =>
          '(sec, rest4) ← two_digits rest3;
          if bool_decide (rest4 = EmptyString) && (h <? 24) && (m <? 60) && (sec <? 60)
          then Some (3600 * h + 60 * m + sec) else None
      | _ => None
      end
  | _ => None
  end.

(** A timestamp [YYYY-MM-DD] or [YYYY-MM-DD HH:MM:SS]. *)
Definition stamp_of_text (s : string) : option pyval :=
  '(c, rest) ← two_digits s;
  '(y, rest) ← two_digits rest;
  match rest with
  | String "-" rest =>
      '(m, rest) ← two_digits rest;
      match rest with
      | String "-" rest =>
          '(d, rest) ← two_digits rest;
          let day := ordinal_of_civil (100 * c + y) m d in
          if bool_decide (civil_of_ordinal day = (100 * c + y, m, d)) then
            match rest with
            | EmptyString => Some (PDatetime day 0)
            | String " " rest => PDatetime day <$> time_of_text rest
            | _ => None
            end
          else None
      | _ => None
      end
  | _ => None
  end.

(** [pd.to_datetime] on the cells of a column, for ISO timestamps: a missing
    value becomes NaT, a text that is no timestamp is an error. *)
Definition csv_to_datetime (col : list pyval) : res (list pyval) :=
  mapM (fun v =>
          match v with
          | PStr s =>
              match stamp_of_text s with
              | Some t => Ok t
              | None => Raise ValueError
              end
          | PDatetime day t => Ok (PDatetime day t)
          | PNone | PNaT | PFloat S754_nan => Ok PNaT
          | _ => Raise TypeError
          end) col.

(** The journal as text after the sample trade, the frame it is read as, and
    the state that holds it. *)
Definition sample_journal : csv_file :=
  [ trade_columns;
    ["2024-01-01 10:00:00"; "BTC/USDT"; "Long"; "2"; "20.0"; "Win"; "0"; "65";
     "Greed"; "양봉(상승)"] ].

Definition journal_frame : DataFrame :=
  {| columns := trade_columns;
     rows := [[PDatetime 738886 36000; PStr "BTC/USDT"; PStr "Long"; PInt 2;
               PFloat (decimal 20 0); PStr "Win"; PInt 0; PInt 65; PStr "Greed";
               PStr "양봉(상승)"]] |}.

Definition journal_state : state csv_file :=
  {| file := Some sample_journal; cache := ∅ |}.





Section App.

(** Parameters: [int(s)] on a string; the local calendar day of a Unix
    timestamp, [datetime.fromtimestamp(ts).date()], in the host's time zone;
    the contents of the CSV file with pandas' writer and reader; and
    [pd.to_datetime] on a column. *)
Variable int_of_str : string -> res Z.
Variable local_date : Z -> res Z.
Variable Content : Type.
Variable to_csv : DataFrame -> Content.
Variable read_csv : Content -> res DataFrame.
Variable to_datetime : list pyval -> res (list pyval).

(** [int(v)]. *)
Definition py_int (v : pyval) : res Z :=
  match v with
  | PInt z => Ok z
  | PBool b => Ok (if b then 1 else 0)
  | PFloat f => int_of_float f
  | PStr s => int_of_str s
  | _ => Raise TypeError
  end.

(** *** get_market_context *)

(** [datetime.fromtimestamp(int(item['timestamp'])).date()]. *)
Definition item_date (item : pyval) : res Z :=
  ts ← subscript item "timestamp"; n ← py_int ts; local_date n.

(** [(int(item['value']), item['value_classification'])]. *)
Definition item_reading (item : pyval) : res (Z * pyval) :=
  v ← subscript item "value";
  fear_greed_value ← py_int v;
  fear_greed_text ← subscript item "value_classification";
  mret (fear_greed_value, fear_greed_text).

(** The loop over the series: the reading of the first item of the target
    day, [None] when the loop ends without a [break]. *)
Fixpoint find_reading (items : list pyval) (target_date : Z) : res (option (Z * pyval)) :=
  match items with
  | [] => mret None
  | item :: rest =>
      d ← item_date item;
      if d =? target_date then r ← item_reading item; mret (Some r)
      else find_reading rest target_date
  end.

(** Part 1 of the lookup, from the decoded series. *)
Definition fear_greed (fng_data : pyval) (target_date : Z) : res (Z * pyval) :=
  items ← iterate fng_data;
  found ← find_reading items target_date;
  match found with
  | Some r => mret r
  | None => first ← item0 fng_data; item_reading first
  end.

(** Part 2 of the lookup, from the candles. *)
Definition trend (btc : list candle) : string :=
  match btc with
  | [] => "-"
  | row :: _ =>
      if float_gt (close_price row) (open_price row) then "양봉(상승)" else "음봉(하락)"
  end.

(** The body of the [try]. *)
Definition lookup (net : network) (target_date : Z) : res context :=
  fng_response ← requests_get net fng_url;
  body ← json fng_response;
  fng_data ← subscript body "data";
  '(fear_greed_value, fear_greed_text) ← fear_greed fng_data target_date;
  stop ← date_add target_date 2;
  btc ← yf_download net "BTC-USD" target_date stop;
  mret (fear_greed_value, fear_greed_text, trend btc).

(** The tuple of the [except] branch. *)
Definition no_context : context := (0, PStr "-", "데이터 없음").

(** The function under its decorator's memo: one uncached call. *)
Definition get_market_context_uncached (net : network) (target_date : Z) : res context :=
  try_except (lookup net target_date) (fun _ => mret no_context).

(** [@st.cache_data(ttl=3600)], as Streamlit documents the decorator: a call
    whose argument has an entry younger than [ttl] seconds returns the entry
    and runs nothing; any other call runs the function and stores what it
    returns, the tuple of the [except] branch included, with the time of the
    call.  The clock is the argument [now]. *)
Definition get_market_context (now : Z) (net : network)
    (cache : gmap Z cache_entry) (target_date : Z) : res (gmap Z cache_entry * context) :=
  let run :=
    ctx ← get_market_context_uncached net target_date;
    mret (<[target_date := {| cached := ctx; stored_at := now |}]> cache, ctx) in
  match cache !! target_date with
  | Some e => if now <? stored_at e + ttl then mret (cache, cached e) else run
  | None => run
  end.

(** *** load_data and save_data *)

(** Lines 57-58: the entry-time column, when the frame has one, is parsed. *)
Definition parse_entry_time (df : DataFrame) : res DataFrame :=
  if has_column "진입일시" df then
    col ← get_column "진입일시" df;
    parsed ← to_datetime col;
    set_column "진입일시" parsed df
  else mret df.

(** The file at [FILE_PATH] is [None] when it does not exist. *)
Definition load_data (file : option Content) : res DataFrame :=
  match file with
  | Some content =>
      try_except (read_csv content ≫= parse_entry_time)
                 (fun _ => mret empty_frame)
  | None => mret empty_frame
  end.

(** Returns the file after [to_csv] has rewritten it. *)
Definition save_data (file : option Content) (data : list (string * pyval)) : res (option Content) :=
  df ← load_data file;
  let new_df := frame_of_record data in
  let final_df := if df_empty df then new_df else concat df new_df in
  mret (Some (to_csv final_df)).

(** *** The submit handler *)

(** The form is submitted at time [now]. *)
Definition submit (now : Z) (net : network) (st : state Content) (f : form) : res (state Content * outcome) :=
  if float_gt_int (entry_price f) 0 && float_gt_int (exit_price f) 0 then
    m ← compute (position f) (entry_price f) (exit_price f)
                (stop_loss f) (take_profit f) (leverage f);
    '(cache', ctx) ← get_market_context now net (cache st) (date f);
    file' ← save_data (file st) (trade_data f m ctx);
    mret ({| file := file'; cache := cache' |}, Saved m ctx)
  else mret (st, PricesMissing).



(** *** Vocabulary of the properties *)

(** The item reads as an entry of another day than the target. *)
Definition other_day (target_date : Z) (item : pyval) : Prop :=
  exists d, item_date item = Ok d /\ d <> target_date.

(** The sentiment feed answers, and its answer holds [fng_data] under "data". *)
Definition serves (net : network) (fng_data : pyval) : Prop :=
  exists resp body,
    requests_get net fng_url = Ok resp /\ json resp = Ok body /\
    subscript body "data" = Ok fng_data.

(** What the memo holds for a date at time [now], if it is still valid. *)
Definition cache_hit (now : Z) (cache : gmap Z cache_entry) (target_date : Z) : option context :=
  e ← cache !! target_date;
  if now <? stored_at e + ttl then Some (cached e) else None.

(** The frame that [save_data] writes when [load_data] has returned [df]
    (lines 66-70). *)
Definition append_frame (df : DataFrame) (data : list (string * pyval)) : DataFrame :=
  if df_empty df then frame_of_record data else concat df (frame_of_record data).



(** The number of rows that an append keeps of the frame loaded. *)
Definition kept_rows (df : DataFrame) : nat :=
  if df_empty df then 0%nat else length (rows df).

(** A dict with the keys of [trade_data], in its order. *)
Definition trade_record (data : list (string * pyval)) : Prop :=
  data.*1 = trade_columns.

(** * Properties *)

(** ** The error monad *)

Lemma bind_Ok {A B : Type} (a : A) (f : A -> res B) : (Ok a ≫= f) = f a.
Proof. reflexivity. Qed.

Lemma bind_Raise {A B : Type} (e : exn) (f : A -> res B) : (Raise e ≫= f) = Raise e.
Proof. reflexivity. Qed.

Lemma bind_Ok_inv {A B : Type} (m : res A) (f : A -> res B) (b : B) :
  m ≫= f = Ok b -> exists a, m = Ok a /\ f a = Ok b.
Proof. destruct m as [a|e]; [exists a; split; [reflexivity|assumption] | discriminate]. Qed.

Lemma try_except_total {A : Type} (body : res A) (a : A) :
  exists r, try_except body (fun _ => mret a) = Ok r.
Proof. destruct body as [r|e]; [exists r | exists a]; reflexivity. Qed.

Lemma try_except_raise {A : Type} (body : res A) (a : A) (e : exn) :
  body = Raise e -> try_except body (fun _ => mret a) = Ok a.
Proof. intros ->. reflexivity. Qed.

Lemma try_except_ok {A : Type} (body : res A) (h : exn -> res A) (r : A) :
  body = Ok r -> try_except body h = Ok r.
Proof. intros ->. reflexivity. Qed.

(** ** Floats against zero *)

Lemma gt_zero_not_zero (x : float) : float_gt_int x 0 = true -> is_zero x = false.
Proof. destruct x; [discriminate | reflexivity ..]. Qed.

Lemma eq_zero_not_gt (x : float) : float_eq_int x 0 = true -> float_gt_int x 0 = false.
Proof.
  unfold float_eq_int, float_gt_int.
  destruct (compare_float_int x 0) as [[]|]; congruence.
Qed.

Lemma gt_zero_not_eq (x : float) : float_gt_int x 0 = true -> float_eq_int x 0 = false.
Proof.
  unfold float_eq_int, float_gt_int.
  destruct (compare_float_int x 0) as [[]|]; congruence.
Qed.

Lemma float_truediv_positive (x y : float) :
  float_gt_int y 0 = true -> float_truediv x y = Ok (fdiv x y).
Proof. intros H. unfold float_truediv. now rewrite (gt_zero_not_zero y H). Qed.

Lemma float_of_int_100 : float_of_int 100 = Ok hundred.
Proof. reflexivity. Qed.

Lemma float_of_int_0 : float_of_int 0 = Ok (S754_zero false).
Proof. reflexivity. Qed.

Lemma float_mul_int_100 (x : float) : float_mul_int x 100 = Ok (fmul x hundred).
Proof. unfold float_mul_int. now rewrite float_of_int_100. Qed.

Lemma float_mul_int_ok (x : float) (z : Z) (l : float) :
  float_of_int z = Ok l -> float_mul_int x z = Ok (fmul x l).
Proof. intros H. unfold float_mul_int. now rewrite H. Qed.

(** ** Conversion of the leverage *)

Lemma digits2_pos_le (p : positive) (n : Z) :
  0 <= n -> Zpos p < 2 ^ n -> Zpos (digits2_pos p) <= n.
Proof.
  revert n. induction p as [p IH | p IH |]; intros n Hn Hlt; simpl digits2_pos.
  - assert (n <> 0) by (intros ->; simpl in Hlt; lia).
    replace n with (Z.succ (n - 1)) in Hlt by lia.
    rewrite Z.pow_succ_r in Hlt by lia.
    specialize (IH (n - 1) ltac:(lia) ltac:(lia)). lia.
  - assert (n <> 0) by (intros ->; simpl in Hlt; lia).
    replace n with (Z.succ (n - 1)) in Hlt by lia.
    rewrite Z.pow_succ_r in Hlt by lia.
    specialize (IH (n - 1) ltac:(lia) ltac:(lia)). lia.
  - assert (n <> 0) by (intros ->; simpl in Hlt; lia). lia.
Qed.

Lemma digits2_pos_iter (p k : positive) :
  digits2_pos (Pos.iter xO p k) = (digits2_pos p + k)%positive.
Proof.
  induction k as [| k IH] using Pos.peano_ind.
  - simpl. lia.
  - rewrite Pos.iter_succ. simpl. rewrite IH. lia.
Qed.

(** A mantissa of exactly 53 bits with an exponent in range is already a float. *)
Lemma binary_round_aux_exact (s : bool) (m : positive) (e : Z) :
  Zpos (digits2_pos m) = 53 -> -1074 <= e <= 971 ->
  binary_round_aux prec emax s (Zpos m) e loc_Exact = S754_finite s m e.
Proof.
  intros Hd He. unfold binary_round_aux.
  assert (shr_fexp prec emax (Zpos m) e loc_Exact =
          ({| shr_m := Zpos m; shr_r := false; shr_s := false |}, e)) as Hshr.
  { unfold shr_fexp, fexp, emin, prec, emax. simpl Zdigits2. rewrite Hd.
    replace (Z.max (53 + e - 53) (3 - 1024 - 53) - e) with 0 by lia. reflexivity. }
  rewrite Hshr. simpl shr_m. simpl loc_of_shr_record. simpl round_nearest_even.
  rewrite Hshr. simpl shr_m.
  replace (e <=? emax - prec) with true; [reflexivity|].
  symmetry. apply Z.leb_le. unfold emax, prec. lia.
Qed.

(** Every leverage the number input can hold converts to a float. *)
Lemma float_of_int_leverage (z : Z) :
  1 <= z <= 2 ^ 53 - 1 -> exists l, float_of_int z = Ok l.
Proof.
  intros Hz. destruct z as [| p | p]; try lia.
  assert (1 <= Zpos (digits2_pos p) <= 53) as Hd.
  { split; [lia | apply digits2_pos_le; lia]. }
  unfold float_of_int, binary_normalize, binary_round.
  unfold fexp, emin, prec, emax, shl_align.
  replace (Z.max (Zpos (digits2_pos p) + 0 - 53) (3 - 1024 - 53) - 0)
    with (Zpos (digits2_pos p) - 53) by lia.
  replace (Z.max (Zpos (digits2_pos p) + 0 - 53) (3 - 1024 - 53))
    with (Zpos (digits2_pos p) - 53) by lia.
  destruct (Zpos (digits2_pos p) - 53) as [| k | k] eqn:Hk; try lia.
  - fold prec emax. rewrite binary_round_aux_exact by lia. eauto.
  - fold prec emax. rewrite binary_round_aux_exact; [eauto | | lia].
    rewrite digits2_pos_iter. lia.
Qed.

(** ** The trade computation *)

Lemma profit_long (position : string) (entry exit : float) (lev : Z) (l : float) :
  contains "Long" position = true ->
  float_gt_int entry 0 = true -> float_of_int lev = Ok l ->
  profit position entry exit lev =
    Ok (spec_pnl_long entry exit l,
        spec_result (spec_pnl_long entry exit l)).
Proof.
  intros Hpos Hentry Hlev. unfold profit. rewrite Hpos.
  rewrite (float_truediv_positive _ _ Hentry), bind_Ok.
  rewrite (float_mul_int_ok _ _ _ Hlev), bind_Ok.
  rewrite float_mul_int_100, bind_Ok. reflexivity.
Qed.

Lemma profit_short (position : string) (entry exit : float) (lev : Z) (l : float) :
  contains "Long" position = false ->
  float_gt_int entry 0 = true -> float_of_int lev = Ok l ->
  profit position entry exit lev =
    Ok (spec_pnl_short entry exit l,
        spec_result (spec_pnl_short entry exit l)).
Proof.
  intros Hpos Hentry Hlev. unfold profit. rewrite Hpos.
  rewrite (float_truediv_positive _ _ Hentry), bind_Ok.
  rewrite (float_mul_int_ok _ _ _ Hlev), bind_Ok.
  rewrite float_mul_int_100, bind_Ok. reflexivity.
Qed.

Lemma num_truediv_positive (reward : num) (r : float) :
  (exists w, reward = NFloat w) \/ reward = NInt 0 ->
  float_gt_int r 0 = true ->
  num_truediv reward (NFloat r) = Ok (NFloat (fdiv (num_float reward) r)).
Proof.
  intros [[w ->] | ->] Hr; unfold num_truediv; simpl num_to_float.
  - rewrite !bind_Ok, (float_truediv_positive _ _ Hr). reflexivity.
  - rewrite float_of_int_0, !bind_Ok, (float_truediv_positive _ _ Hr). reflexivity.
Qed.

Lemma spec_reward_shape (entry take : float) :
  (exists w, spec_reward entry take = NFloat w) \/ spec_reward entry take = NInt 0.
Proof. unfold spec_reward. destruct (float_gt_int take 0); eauto. Qed.

Lemma risk_reward_eq (entry stop take : float) :
  risk_reward entry stop take =
    Ok (spec_risk entry stop, spec_reward entry take,
        spec_ratio (spec_reward entry take) (spec_risk entry stop)).
Proof.
  unfold risk_reward. fold (spec_risk entry stop). fold (spec_reward entry take).
  unfold spec_ratio.
  destruct (spec_risk entry stop) as [n | r] eqn:Hrisk.
  - assert (n = 0) as ->.
    { unfold spec_risk in Hrisk. destruct (float_gt_int stop 0); congruence. }
    reflexivity.
  - simpl num_gt_int. destruct (float_gt_int r 0) eqn:Hr; [|reflexivity].
    rewrite (num_truediv_positive _ _ (spec_reward_shape entry take) Hr).
    reflexivity.
Qed.

Lemma compute_eq (position : string) (entry exit stop take : float) (lev : Z) (p : float) (s : string) :
  profit position entry exit lev = Ok (p, s) ->
  compute position entry exit stop take lev =
    Ok {| pnl_rate := p; pnl_status := s;
          risk := spec_risk entry stop; reward := spec_reward entry take;
          rr_ratio := spec_ratio (spec_reward entry take) (spec_risk entry stop) |}.
Proof.
  intros H. unfold compute. rewrite H, bind_Ok. simpl.
  rewrite risk_reward_eq, bind_Ok. reflexivity.
Qed.

(** C1.  For an entry price and an exit price above zero and a leverage that
    converts to the float [l], the trade computation returns the percentage
    [(exit - entry) / entry * leverage * 100] for a Long position and
    [(entry - exit) / entry * leverage * 100] for a Short one. *)
Theorem pnl_rate_formula (entry exit stop take : float) (lev : Z) (l : float) :
  float_gt_int entry 0 = true -> float_gt_int exit 0 = true ->
  float_of_int lev = Ok l ->
  pnl_rate <$> compute "Long" entry exit stop take lev = Ok (spec_pnl_long entry exit l) /\
  pnl_rate <$> compute "Short" entry exit stop take lev = Ok (spec_pnl_short entry exit l).
Proof.
  intros Hentry _ Hlev. split.
  - rewrite (compute_eq _ _ _ _ _ _ _ _ (profit_long "Long" _ exit _ _ eq_refl Hentry Hlev)).
    reflexivity.
  - rewrite (compute_eq _ _ _ _ _ _ _ _ (profit_short "Short" _ exit _ _ eq_refl Hentry Hlev)).
    reflexivity.
Qed.

Lemma profit_classified (position : string) (entry exit : float) (lev : Z) (l : float) :
  float_gt_int entry 0 = true -> float_of_int lev = Ok l ->
  exists p, profit position entry exit lev = Ok (p, spec_result p).
Proof.
  intros Hentry Hlev. destruct (contains "Long" position) eqn:Hpos.
  - eexists. apply (profit_long _ _ _ _ _ Hpos Hentry Hlev).
  - eexists. apply (profit_short _ _ _ _ _ Hpos Hentry Hlev).
Qed.

Lemma compute_total (position : string) (entry exit stop take : float) (lev : Z) (l : float) :
  float_gt_int entry 0 = true -> float_of_int lev = Ok l ->
  exists p, compute position entry exit stop take lev =
    Ok {| pnl_rate := p; pnl_status := spec_result p;
          risk := spec_risk entry stop; reward := spec_reward entry take;
          rr_ratio := spec_ratio (spec_reward entry take) (spec_risk entry stop) |}.
Proof.
  intros Hentry Hlev.
  destruct (profit_classified position entry exit lev l Hentry Hlev) as [p Hp].
  exists p. apply compute_eq, Hp.
Qed.

(** C2.  On valid prices the computation classifies the trade as Win exactly
    when the percentage is above zero, for any position; a percentage equal
    to zero gives Lose. *)
Theorem result_win_iff_positive (position : string) (entry exit stop take : float) (lev : Z) (l : float) :
  float_gt_int entry 0 = true -> float_gt_int exit 0 = true ->
  float_of_int lev = Ok l ->
  exists m, compute position entry exit stop take lev = Ok m /\
    (pnl_status m = "Win" <-> float_gt_int (pnl_rate m) 0 = true) /\
    (pnl_status m = "Lose" <-> float_gt_int (pnl_rate m) 0 = false) /\
    (float_eq_int (pnl_rate m) 0 = true -> pnl_status m = "Lose").
Proof.
  intros Hentry _ Hlev.
  destruct (compute_total position entry exit stop take lev l Hentry Hlev) as [p Hp].
  eexists. split; [exact Hp|]. simpl. unfold spec_result.
  repeat split; try (destruct (float_gt_int p 0); congruence).
  intros H0. now rewrite (eq_zero_not_gt p H0).
Qed.

(** Whenever the computation returns, the classification is that of the
    percentage it returns. *)
Lemma profit_inv (position : string) (entry exit : float) (lev : Z) (p : float) (s : string) :
  profit position entry exit lev = Ok (p, s) -> s = spec_result p.
Proof.
  unfold profit. intros H.
  destruct (contains "Long" position);
    apply bind_Ok_inv in H as (q & _ & H);
    apply bind_Ok_inv in H as (l & _ & H);
    apply bind_Ok_inv in H as (r & _ & H);
    now injection H as <- <-.
Qed.

Lemma compute_inv (position : string) (entry exit stop take : float) (lev : Z) (m : metrics) :
  compute position entry exit stop take lev = Ok m ->
  pnl_status m = spec_result (pnl_rate m).
Proof.
  unfold compute. intros H.
  apply bind_Ok_inv in H as ([p s] & Hp & H).
  apply bind_Ok_inv in H as ([[r w] rr] & _ & H).
  injection H as <-. simpl. apply (profit_inv _ _ _ _ _ _ Hp).
Qed.

Lemma spec_ratio_no_stop (entry stop take : float) :
  float_gt_int stop 0 = false ->
  spec_ratio (spec_reward entry take) (spec_risk entry stop) = NInt 0.
Proof. intros H. unfold spec_risk. rewrite H. reflexivity. Qed.

(** C3.  For every input the handler's risk, reward and ratio are the
    specification's: the risk is [|entry - stop|] when the stop is above zero
    and 0 otherwise, the reward likewise from the take-profit, the ratio is
    [reward / risk] when the risk is above zero and 0 otherwise.  The code
    never raises there; the ratio is 0 when the stop equals zero whatever the
    take-profit; and a risk above zero is a float that is not a zero. *)
Theorem risk_reward_ratio_spec (entry stop take : float) :
  risk_reward entry stop take =
    Ok (spec_risk entry stop, spec_reward entry take,
        spec_ratio (spec_reward entry take) (spec_risk entry stop)) /\
  (float_eq_int stop 0 = true ->
   spec_ratio (spec_reward entry take) (spec_risk entry stop) = NInt 0) /\
  (num_gt_int (spec_risk entry stop) 0 = true ->
   exists r, spec_risk entry stop = NFloat r /\ is_zero r = false).
Proof.
  split; [apply risk_reward_eq|]. split.
  - intros H. apply spec_ratio_no_stop, eq_zero_not_gt, H.
  - destruct (spec_risk entry stop) as [n | r] eqn:Hrisk.
    + unfold spec_risk in Hrisk. destruct (float_gt_int stop 0); [discriminate|].
      injection Hrisk as <-. discriminate.
    + intros H. exists r. split; [reflexivity|]. apply gt_zero_not_zero, H.
Qed.

(** The two worked examples of the specification: Long from 100 to 110 at
    leverage 2, and Short from 100 to 90 with a stop at 105 and a take-profit
    at 80 at leverage 1. *)
Example long_example :
  compute "Long" (decimal 100 0) (decimal 110 0) (decimal 0 0) (decimal 0 0) 2 =
    Ok {| pnl_rate := decimal 20 0; pnl_status := "Win";
          risk := NInt 0; reward := NInt 0; rr_ratio := NInt 0 |}.
Proof. reflexivity. Qed.

Example short_example :
  compute "Short" (decimal 100 0) (decimal 90 0) (decimal 105 0) (decimal 80 0) 1 =
    Ok {| pnl_rate := decimal 10 0; pnl_status := "Win";
          risk := NFloat (decimal 5 0); reward := NFloat (decimal 20 0);
          rr_ratio := NFloat (decimal 4 0) |}.
Proof. reflexivity. Qed.

(** Rounding to two decimals: ties go to the even neighbour of the exact
    binary value, and a value below half a cent becomes a zero of its sign. *)
Example round2_examples :
  round2 (decimal 125 3) = decimal 12 2 /\
  round2 (decimal 2675 3) = decimal 267 2 /\
  round2 (decimal 4 3) = S754_zero false /\
  round2 (decimal (-1) 3) = S754_zero true.
Proof. repeat split; reflexivity. Qed.

(** ** get_market_context *)

Lemma get_market_context_uncached_total (net : network) (target_date : Z) :
  exists ctx, get_market_context_uncached net target_date = Ok ctx.
Proof. apply try_except_total. Qed.

Lemma lookup_raise_defaults (net : network) (target_date : Z) (e : exn) :
  lookup net target_date = Raise e ->
  get_market_context_uncached net target_date = Ok no_context.
Proof. intros H. unfold get_market_context_uncached. now rewrite H. Qed.

(** No answer from the sentiment feed: the lookup raises before the price feed
    is asked, whatever it would say. *)
Lemma lookup_sentiment_down (net : network) (target_date : Z) (e : exn) :
  requests_get net fng_url = Raise e -> lookup net target_date = Raise e.
Proof. intros H. unfold lookup. now rewrite H. Qed.

Lemma lookup_bad_json (net : network) (target_date : Z) (resp : response) (e : exn) :
  requests_get net fng_url = Ok resp -> json resp = Raise e ->
  lookup net target_date = Raise e.
Proof. intros H1 H2. unfold lookup. now rewrite H1, bind_Ok, H2. Qed.

Lemma lookup_served (net : network) (target_date : Z) (fng_data : pyval) :
  serves net fng_data ->
  lookup net target_date =
    ('(fear_greed_value, fear_greed_text) ← fear_greed fng_data target_date;
     stop ← date_add target_date 2;
     btc ← yf_download net "BTC-USD" target_date stop;
     mret (fear_greed_value, fear_greed_text, trend btc)).
Proof.
  intros (resp & body & H1 & H2 & H3). unfold lookup.
  now rewrite H1, bind_Ok, H2, bind_Ok, H3, bind_Ok.
Qed.

(** An empty series has no first item to fall back on. *)
Lemma lookup_empty_series (net : network) (target_date : Z) :
  serves net (PList []) -> lookup net target_date = Raise IndexError.
Proof. intros H. now rewrite (lookup_served _ _ _ H). Qed.

(** The price feed fails after the sentiment was read: the reading is dropped. *)
Lemma lookup_price_down (net : network) (target_date : Z) (fng_data : pyval) (r : Z * pyval) (e : exn) :
  serves net fng_data -> fear_greed fng_data target_date = Ok r ->
  1 <= target_date <= max_ordinal - 2 ->
  yf_download net "BTC-USD" target_date (target_date + 2) = Raise e ->
  lookup net target_date = Raise e.
Proof.
  intros Hs Hr Hd Hy. rewrite (lookup_served _ _ _ Hs), Hr, bind_Ok.
  destruct r as [v c]. unfold date_add.
  replace ((1 <=? target_date + 2) && (target_date + 2 <=? max_ordinal)) with true
    by (symmetry; apply andb_true_iff; split; apply Z.leb_le; lia).
  now rewrite bind_Ok, Hy.
Qed.

Lemma date_add_ok (d n : Z) :
  1 <= d + n <= max_ordinal -> date_add d n = Ok (d + n).
Proof.
  intros H. unfold date_add.
  replace ((1 <=? d + n) && (d + n <=? max_ordinal)) with true; [reflexivity|].
  symmetry. apply andb_true_iff. split; apply Z.leb_le; lia.
Qed.

Lemma lookup_ok (net : network) (target_date : Z) (fng_data : pyval) (v : Z) (c : pyval) (btc : list candle) :
  serves net fng_data -> fear_greed fng_data target_date = Ok (v, c) ->
  1 <= target_date <= max_ordinal - 2 ->
  yf_download net "BTC-USD" target_date (target_date + 2) = Ok btc ->
  get_market_context_uncached net target_date = Ok (v, c, trend btc).
Proof.
  intros Hs Hr Hd Hy. unfold get_market_context_uncached.
  rewrite (lookup_served _ _ _ Hs), Hr, bind_Ok. simpl.
  rewrite date_add_ok by lia. now rewrite bind_Ok, Hy.
Qed.

(** The loop passes over the items of other days. *)
Lemma find_reading_skip (pre rest : list pyval) (target_date : Z) :
  Forall (other_day target_date) pre ->
  find_reading (pre ++ rest) target_date = find_reading rest target_date.
Proof.
  induction 1 as [| item pre (d & Hd & Hne) _ IH]; [reflexivity|].
  simpl. rewrite Hd, bind_Ok.
  destruct (Z.eqb_spec d target_date) as [Heq | _]; [contradiction | exact IH].
Qed.

Lemma find_reading_hit (item : pyval) (rest : list pyval) (target_date : Z) (r : Z * pyval) :
  item_date item = Ok target_date -> item_reading item = Ok r ->
  find_reading (item :: rest) target_date = Ok (Some r).
Proof. intros Hd Hr. simpl. now rewrite Hd, bind_Ok, Z.eqb_refl, Hr. Qed.

Lemma find_reading_none (items : list pyval) (target_date : Z) :
  Forall (other_day target_date) items ->
  find_reading items target_date = Ok None.
Proof.
  intros H. rewrite <- (app_nil_r items). now rewrite (find_reading_skip _ _ _ H).
Qed.

Lemma fear_greed_match (pre post : list pyval) (item : pyval) (target_date : Z) (r : Z * pyval) :
  Forall (other_day target_date) pre ->
  item_date item = Ok target_date -> item_reading item = Ok r ->
  fear_greed (PList (pre ++ item :: post)) target_date = Ok r.
Proof.
  intros Hpre Hd Hr. unfold fear_greed. simpl iterate. rewrite bind_Ok.
  now rewrite (find_reading_skip _ _ _ Hpre), (find_reading_hit _ _ _ _ Hd Hr).
Qed.

Lemma fear_greed_fallback (first : pyval) (rest : list pyval) (target_date : Z) (r : Z * pyval) :
  Forall (other_day target_date) (first :: rest) ->
  item_reading first = Ok r ->
  fear_greed (PList (first :: rest)) target_date = Ok r.
Proof.
  intros Hall Hr. unfold fear_greed. simpl iterate. rewrite bind_Ok.
  now rewrite (find_reading_none _ _ Hall).
Qed.

(** C5.  When the sentiment feed serves the series [items] and the price feed
    answers: an item of the target day, reached past items of other days,
    gives its value and its label; when every item is of another day, the
    first item of the series gives them.  In both cases the call returns. *)
Theorem sentiment_of_target_day (net : network) (target_date : Z)
    (items : list pyval) (btc : list candle) :
  serves net (PList items) ->
  1 <= target_date <= max_ordinal - 2 ->
  yf_download net "BTC-USD" target_date (target_date + 2) = Ok btc ->
  (forall pre item post v c,
     items = pre ++ item :: post ->
     Forall (other_day target_date) pre ->
     item_date item = Ok target_date -> item_reading item = Ok (v, c) ->
     get_market_context_uncached net target_date = Ok (v, c, trend btc)) /\
  (forall first rest v c,
     items = first :: rest ->
     Forall (other_day target_date) items ->
     item_reading first = Ok (v, c) ->
     get_market_context_uncached net target_date = Ok (v, c, trend btc)).
Proof.
  intros Hs Hd Hy. split.
  - intros pre item post v c -> Hpre Hitem Hread.
    apply (lookup_ok _ _ _ _ _ _ Hs); [|assumption..].
    apply fear_greed_match; assumption.
  - intros first rest v c -> Hall Hread.
    apply (lookup_ok _ _ _ _ _ _ Hs); [|assumption..].
    apply fear_greed_fallback; assumption.
Qed.

Lemma SFcompare_Eq_sym (x y : float) :
  SFcompare x y = Some Eq -> SFcompare y x = Some Eq.
Proof.
  destruct x as [sx | sx | | sx mx ex], y as [sy | sy | | sy my ey];
    simpl; try discriminate; try reflexivity;
    try (destruct sx; discriminate); try (destruct sy; discriminate).
  - destruct sx, sy; (discriminate || reflexivity).
  - destruct sx, sy; try discriminate;
      destruct (Z.compare_spec ex ey) as [-> | |]; try discriminate;
      rewrite Z.compare_refl; fold (Pos.compare mx my); fold (Pos.compare my mx);
      destruct (Pos.compare_spec mx my) as [-> | |]; try discriminate;
      now rewrite Pos.compare_refl.
Qed.

Lemma float_eq_not_gt (x y : float) : SFeqb x y = true -> float_gt x y = false.
Proof.
  unfold SFeqb, float_gt, SFltb. intros H.
  destruct (SFcompare x y) as [[]|] eqn:Hc; try discriminate.
  now rewrite (SFcompare_Eq_sym _ _ Hc).
Qed.

(** C6.  When the sentiment part has returned, the trend comes from the daily
    candles asked for the days from the target day up to, and not including,
    the target day plus two: "-" for no candle, else the bullish label when
    the first row closes strictly above its open and the bearish one
    otherwise, a close equal to the open included. *)
Theorem trend_of_first_candle (net : network) (target_date : Z)
    (fng_data : pyval) (v : Z) (c : pyval) (btc : list candle) :
  serves net fng_data -> fear_greed fng_data target_date = Ok (v, c) ->
  1 <= target_date <= max_ordinal - 2 ->
  yf_download net "BTC-USD" target_date (target_date + 2) = Ok btc ->
  exists t,
    get_market_context_uncached net target_date = Ok (v, c, t) /\
    t = match btc with
        | [] => "-"
        | row :: _ =>
            if float_gt (close_price row) (open_price row)
            then "양봉(상승)" else "음봉(하락)"
        end /\
    (forall row rest, btc = row :: rest ->
       SFeqb (close_price row) (open_price row) = true -> t = "음봉(하락)").
Proof.
  intros Hs Hr Hd Hy. exists (trend btc). split; [|split].
  - apply (lookup_ok _ _ _ _ _ _ Hs Hr Hd Hy).
  - reflexivity.
  - intros row rest -> Heq. simpl. now rewrite (float_eq_not_gt _ _ Heq).
Qed.

(** ** The memo *)

Lemma get_market_context_hit (now : Z) (net : network) (cache : gmap Z cache_entry)
    (target_date : Z) (ctx : context) :
  cache_hit now cache target_date = Some ctx ->
  get_market_context now net cache target_date = Ok (cache, ctx).
Proof.
  unfold cache_hit, get_market_context.
  destruct (cache !! target_date) as [e|]; simpl; [|discriminate].
  destruct (now <? stored_at e + ttl); [|discriminate].
  now intros [= ->].
Qed.

Lemma get_market_context_miss (now : Z) (net : network) (cache : gmap Z cache_entry)
    (target_date : Z) (ctx : context) :
  cache_hit now cache target_date = None ->
  get_market_context_uncached net target_date = Ok ctx ->
  get_market_context now net cache target_date =
    Ok (<[target_date := {| cached := ctx; stored_at := now |}]> cache, ctx).
Proof.
  unfold cache_hit, get_market_context. intros Hmiss Hrun.
  destruct (cache !! target_date) as [e|]; simpl in Hmiss.
  - destruct (now <? stored_at e + ttl); [discriminate|]. now rewrite Hrun.
  - now rewrite Hrun.
Qed.

Lemma get_market_context_total (now : Z) (net : network) (cache : gmap Z cache_entry)
    (target_date : Z) :
  exists cache' ctx, get_market_context now net cache target_date = Ok (cache', ctx).
Proof.
  destruct (cache_hit now cache target_date) as [ctx|] eqn:Hc.
  - exists cache, ctx. now apply get_market_context_hit.
  - destruct (get_market_context_uncached_total net target_date) as [ctx Hrun].
    eexists _, ctx. now apply get_market_context_miss.
Qed.

(** C9.  A call that finds no valid entry for its date computes the tuple
    and stores it under the date with the time of the call; from then on
    and for less than 3600 seconds, every call for that date on a memo that
    still holds the entry returns the stored tuple and leaves the memo as it
    is, whatever the feeds would answer. *)
Theorem cached_within_ttl (now0 : Z) (net0 : network) (cache : gmap Z cache_entry)
    (target_date : Z) :
  cache_hit now0 cache target_date = None ->
  exists ctx,
    get_market_context_uncached net0 target_date = Ok ctx /\
    get_market_context now0 net0 cache target_date =
      Ok (<[target_date := {| cached := ctx; stored_at := now0 |}]> cache, ctx) /\
    (<[target_date := {| cached := ctx; stored_at := now0 |}]> cache) !! target_date =
      Some {| cached := ctx; stored_at := now0 |} /\
    forall (cache' : gmap Z cache_entry) (now1 : Z) (net1 : network),
      cache' !! target_date = Some {| cached := ctx; stored_at := now0 |} ->
      now1 < now0 + 3600 ->
      get_market_context now1 net1 cache' target_date = Ok (cache', ctx).
Proof.
  intros Hmiss.
  destruct (get_market_context_uncached_total net0 target_date) as [ctx Hrun].
  exists ctx. split; [exact Hrun|]. split; [now apply get_market_context_miss|].
  split; [apply lookup_insert_eq|].
  intros cache' now1 net1 Hentry Hlt.
  apply get_market_context_hit. unfold cache_hit. rewrite Hentry. simpl.
  replace (now1 <? now0 + ttl) with true; [reflexivity|].
  symmetry. apply Z.ltb_lt. exact Hlt.
Qed.

(** ** load_data *)

Lemma load_data_missing : load_data None = Ok empty_frame.
Proof. reflexivity. Qed.

Lemma load_data_unreadable (content : Content) (e : exn) :
  read_csv content = Raise e -> load_data (Some content) = Ok empty_frame.
Proof. intros H. simpl. now rewrite H. Qed.

Lemma load_data_unparsed (content : Content) (df : DataFrame) (e : exn) :
  read_csv content = Ok df -> parse_entry_time df = Raise e ->
  load_data (Some content) = Ok empty_frame.
Proof. intros H1 H2. simpl. now rewrite H1, bind_Ok, H2. Qed.


Lemma load_data_total (file : option Content) : exists df, load_data file = Ok df.
Proof.
  destruct file as [content|]; [apply try_except_total | now exists empty_frame].
Qed.

(** C7.  Loading returns the empty frame when the file does not exist, and
    when it exists and reading it raises, in the reader or in the parsing of
    the entry times; loading itself never raises. *)
Theorem load_data_never_raises :
  load_data None = Ok empty_frame /\
  (forall content, raises (read_csv content ≫= parse_entry_time) ->
     load_data (Some content) = Ok empty_frame) /\
  (forall file, exists df, load_data file = Ok df).
Proof.
  split; [reflexivity|]. split; [|apply load_data_total].
  intros content [e He]. simpl. now rewrite He.
Qed.

(** ** save_data and the handler *)

Lemma save_data_eq (file : option Content) (data : list (string * pyval)) (df : DataFrame) :
  load_data file = Ok df ->
  save_data file data =
    Ok (Some (to_csv (if df_empty df then frame_of_record data
                      else concat df (frame_of_record data)))).
Proof. intros H. unfold save_data. now rewrite H. Qed.

Lemma submit_prices_missing (now : Z) (net : network) (st : state Content) (f : form) :
  float_gt_int (entry_price f) 0 && float_gt_int (exit_price f) 0 = false ->
  submit now net st f = Ok (st, PricesMissing).
Proof. intros H. unfold submit. now rewrite H. Qed.

Lemma submit_saved (now : Z) (net : network) (st : state Content) (f : form)
    (m : metrics) (cache' : gmap Z cache_entry) (ctx : context) (df : DataFrame) :
  float_gt_int (entry_price f) 0 = true -> float_gt_int (exit_price f) 0 = true ->
  compute (position f) (entry_price f) (exit_price f)
          (stop_loss f) (take_profit f) (leverage f) = Ok m ->
  get_market_context now net (cache st) (date f) = Ok (cache', ctx) ->
  load_data (file st) = Ok df ->
  submit now net st f =
    Ok ({| file := Some (to_csv (if df_empty df then frame_of_record (trade_data f m ctx)
                                 else concat df (frame_of_record (trade_data f m ctx))));
           cache := cache' |},
        Saved m ctx).
Proof.
  intros He Hx Hm Hc Hl. unfold submit. rewrite He, Hx. simpl andb. cbv iota.
  rewrite Hm, bind_Ok, Hc, bind_Ok. simpl.
  now rewrite (save_data_eq _ _ _ Hl), bind_Ok.
Qed.

(** A submission with prices above zero is always saved. *)
Lemma submit_total (now : Z) (net : network) (st : state Content) (f : form) (l : float) :
  float_gt_int (entry_price f) 0 = true -> float_gt_int (exit_price f) 0 = true ->
  float_of_int (leverage f) = Ok l ->
  exists st' m ctx, submit now net st f = Ok (st', Saved m ctx).
Proof.
  intros He Hx Hl.
  destruct (compute_total (position f) _ (exit_price f) (stop_loss f) (take_profit f) _ _ He Hl)
    as [p Hm].
  destruct (get_market_context_total now net (cache st) (date f)) as (cache' & ctx & Hc).
  destruct (load_data_total (file st)) as [df Hdf].
  eexists _, _, ctx. apply (submit_saved _ _ _ _ _ _ _ _ He Hx Hm Hc Hdf).
Qed.

(** The same for every leverage the number input can hold. *)
Lemma submit_total_leverage (now : Z) (net : network) (st : state Content) (f : form) :
  float_gt_int (entry_price f) 0 = true -> float_gt_int (exit_price f) 0 = true ->
  1 <= leverage f <= 2 ^ 53 - 1 ->
  exists st' m ctx, submit now net st f = Ok (st', Saved m ctx).
Proof.
  intros He Hx Hlev. destruct (float_of_int_leverage _ Hlev) as [l Hl].
  apply (submit_total now net st f l He Hx Hl).
Qed.

(** ** Frames and appended records *)

Lemma trade_columns_NoDup : NoDup trade_columns.
Proof. apply (bool_decide_unpack (NoDup trade_columns)). vm_compute. reflexivity. Qed.

Lemma trade_data_record (f : form) (m : metrics) (ctx : context) :
  trade_record (trade_data f m ctx).
Proof. now destruct ctx as [[v c] t]. Qed.

Lemma trade_record_NoDup (data : list (string * pyval)) :
  trade_record data -> NoDup data.*1.
Proof. intros H. rewrite H. apply trade_columns_NoDup. Qed.

Lemma col_index_lookup (cols : list string) (i : nat) (c : string) :
  NoDup cols -> cols !! i = Some c -> col_index c cols = Some i.
Proof.
  intros Hnd Hc. unfold col_index.
  assert (list_find (fun x => x = c) cols = Some (i, c)) as ->; [|reflexivity].
  apply list_find_Some. split; [exact Hc|]. split; [reflexivity|].
  intros j y Hj Hlt ->.
  pose proof (NoDup_lookup _ _ _ _ Hnd Hj Hc). lia.
Qed.

Lemma cell_of_record (data : list (string * pyval)) (c : string) (v : pyval) :
  NoDup data.*1 -> (c, v) ∈ data -> cell data.*1 data.*2 c = v.
Proof.
  intros Hnd Hin. apply list_elem_of_lookup in Hin as [i Hi].
  assert (data.*1 !! i = Some c) as Hc by now rewrite list_lookup_fmap, Hi.
  unfold cell. rewrite (col_index_lookup _ _ _ Hnd Hc).
  now rewrite list_lookup_fmap, Hi.
Qed.

Lemma union_columns_NoDup (l1 l2 : list string) :
  NoDup l1 -> NoDup l2 -> NoDup (l1 ++ filter (fun c => c ∉ l1) l2).
Proof.
  intros H1 H2. apply NoDup_app. split; [exact H1|]. split.
  - intros c Hc Hf. apply list_elem_of_filter in Hf as [Hn _]. exact (Hn Hc).
  - now apply NoDup_filter.
Qed.

Lemma union_columns_elem (l1 l2 : list string) (c : string) :
  c ∈ l1 \/ c ∈ l2 -> c ∈ l1 ++ filter (fun c => c ∉ l1) l2.
Proof.
  intros H. apply elem_of_app.
  destruct (decide (c ∈ l1)) as [|Hn]; [now left|].
  right. apply list_elem_of_filter. split; [exact Hn|]. now destruct H.
Qed.

(** *** Cells and the conversion of their column *)

Lemma upcast_refl (v : pyval) : upcast v v.
Proof. now left. Qed.

Lemma upcast_astype (d : dtype) (v : pyval) : upcast v (astype d v).
Proof. destruct d, v; try (left; reflexivity). right. now eexists. Qed.


Lemma upcast_str (s : string) (v : pyval) : upcast (PStr s) v -> v = PStr s.
Proof. intros [-> | (z & Hz & _)]; [reflexivity | discriminate Hz]. Qed.

Lemma upcast_float (x : float) (v : pyval) : upcast (PFloat x) v -> v = PFloat x.
Proof. intros [-> | (z & Hz & _)]; [reflexivity | discriminate Hz]. Qed.

Lemma upcast_datetime (day t : Z) (v : pyval) :
  upcast (PDatetime day t) v -> v = PDatetime day t.
Proof. intros [-> | (z & Hz & _)]; [reflexivity | discriminate Hz]. Qed.

Lemma upcast_zero (v : pyval) :
  upcast (PInt 0) v -> v = PInt 0 \/ v = PFloat (S754_zero false).
Proof.
  intros [-> | (z & Hz & ->)]; [now left|]. right. now injection Hz as <-.
Qed.

(** The cell of a row laid out over other labels, under a label the frame
    has. *)
Lemma cell_laid_out (dt : string -> dtype) (cols : list string) (df : DataFrame)
    (row : list pyval) (c : string) :
  NoDup cols -> c ∈ cols -> c ∈ columns df ->
  cell cols ((fun c => if bool_decide (c ∈ columns df)
                       then astype (dt c) (cell (columns df) row c)
                       else missing (dt c)) <$> cols) c
  = astype (dt c) (cell (columns df) row c).
Proof.
  intros Hnd Hin Hdf. apply list_elem_of_lookup in Hin as [i Hi].
  unfold cell at 1. rewrite (col_index_lookup _ _ _ Hnd Hi).
  rewrite list_lookup_fmap, Hi. simpl.
  now rewrite bool_decide_eq_true_2.
Qed.

(** The same under a label the frame lacks. *)
Lemma cell_laid_out_missing (dt : string -> dtype) (cols : list string) (df : DataFrame)
    (row : list pyval) (c : string) :
  NoDup cols -> c ∈ cols -> c ∉ columns df ->
  cell cols ((fun c => if bool_decide (c ∈ columns df)
                       then astype (dt c) (cell (columns df) row c)
                       else missing (dt c)) <$> cols) c
  = missing (dt c).
Proof.
  intros Hnd Hin Hdf. apply list_elem_of_lookup in Hin as [i Hi].
  unfold cell at 1. rewrite (col_index_lookup _ _ _ Hnd Hi).
  rewrite list_lookup_fmap, Hi. simpl.
  now rewrite bool_decide_eq_false_2.
Qed.

Lemma missing_value (d : dtype) : missing d = NaN \/ missing d = PNaT.
Proof. destruct d; simpl; auto. Qed.

(** *** One record appended *)

(** [pd.concat] of a frame and a one-row frame: the labels of the first, then
    the new ones; one row more; every cell of the first frame under its
    label, up to the conversion of its column; the record in the last row,
    up to the same; and the missing value where a row has no cell. *)
Lemma concat_record (df : DataFrame) (data : list (string * pyval)) :
  NoDup (columns df) -> NoDup data.*1 ->
  columns (concat df (frame_of_record data))
    = columns df ++ filter (fun c => c ∉ columns df) data.*1 /\
  NoDup (columns (concat df (frame_of_record data))) /\
  length (rows (concat df (frame_of_record data))) = S (length (rows df)) /\
  (forall i row, rows df !! i = Some row ->
     exists row', rows (concat df (frame_of_record data)) !! i = Some row' /\
       (forall c, c ∈ columns df ->
          upcast (cell (columns df) row c)
                 (cell (columns (concat df (frame_of_record data))) row' c)) /\
       (forall c, c ∉ columns df -> c ∈ data.*1 ->
          cell (columns (concat df (frame_of_record data))) row' c = NaN \/
          cell (columns (concat df (frame_of_record data))) row' c = PNaT)) /\
  (exists last, rows (concat df (frame_of_record data)) !! length (rows df) = Some last /\
     (forall c v, (c, v) ∈ data ->
        upcast v (cell (columns (concat df (frame_of_record data))) last c)) /\
     (forall c, c ∈ columns df -> c ∉ data.*1 ->
        cell (columns (concat df (frame_of_record data))) last c = NaN \/
        cell (columns (concat df (frame_of_record data))) last c = PNaT)).
Proof.
  intros Hnd Hnd'.
  pose proof (union_columns_NoDup _ _ Hnd Hnd') as Hu.
  unfold concat. cbn [columns rows frame_of_record].
  set (cols := columns df ++ filter (fun c => c ∉ columns df) data.*1) in *.
  set (dt := fun c => common_dtype _ _).
  split; [reflexivity|]. split; [exact Hu|]. split; [|split].
  - unfold lay_out. cbn [rows]. rewrite length_app, !length_fmap. simpl. lia.
  - intros i row Hi. unfold lay_out at 1.
    eexists. split; [|split].
    + rewrite lookup_app_l by (rewrite length_fmap; now apply lookup_lt_Some in Hi).
      rewrite list_lookup_fmap, Hi. reflexivity.
    + intros c Hc.
      rewrite cell_laid_out; [apply upcast_astype | exact Hu | | exact Hc].
      apply union_columns_elem. now left.
    + intros c Hn Hk.
      rewrite cell_laid_out_missing; [apply missing_value | exact Hu | | exact Hn].
      apply union_columns_elem. now right.
  - eexists. split; [|split].
    + unfold lay_out. cbn [rows columns].
      rewrite lookup_app_r by (rewrite length_fmap; lia).
      rewrite length_fmap, Nat.sub_diag. reflexivity.
    + intros c v Hin.
      assert (c ∈ data.*1) as Hk by (apply list_elem_of_fmap; now exists (c, v)).
      assert (c ∈ cols) as Hc by (apply union_columns_elem; now right).
      pose proof (cell_laid_out dt cols (frame_of_record data) data.*2 c Hu Hc Hk) as Hcell.
      rewrite Hcell. cbn [frame_of_record columns].
      rewrite (cell_of_record _ _ _ Hnd' Hin). apply upcast_astype.
    + intros c Hc Hn.
      assert (c ∈ cols) as Hc' by (apply union_columns_elem; now left).
      pose proof (cell_laid_out_missing dt cols (frame_of_record data) data.*2 c Hu Hc' Hn)
        as Hcell.
      rewrite Hcell. apply missing_value.
Qed.

Lemma df_empty_false (df : DataFrame) :
  columns df <> [] -> rows df <> [] -> df_empty df = false.
Proof.
  destruct df as [[|c cols] [|r rws]]; unfold df_empty; simpl; intros H1 H2;
    first [reflexivity | now destruct H1 | now destruct H2].
Qed.

(** The frame that [save_data] writes for a trade record. *)
Lemma append_frame_step (df : DataFrame) (data : list (string * pyval)) :
  NoDup (columns df) -> trade_record data ->
  NoDup (columns (append_frame df data)) /\
  df_empty (append_frame df data) = false /\
  length (rows (append_frame df data)) = S (kept_rows df) /\
  (forall c, df_empty df = false -> c ∈ columns df -> c ∈ columns (append_frame df data)) /\
  (forall c v, (c, v) ∈ data -> c ∈ columns (append_frame df data)) /\
  (forall i row c, (i < kept_rows df)%nat -> rows df !! i = Some row -> c ∈ columns df ->
     exists row', rows (append_frame df data) !! i = Some row' /\
       upcast (cell (columns df) row c) (cell (columns (append_frame df data)) row' c)) /\
  (exists last, rows (append_frame df data) !! kept_rows df = Some last /\
     forall c v, (c, v) ∈ data ->
       upcast v (cell (columns (append_frame df data)) last c)).
Proof.
  intros Hnd Hrec. pose proof (trade_record_NoDup _ Hrec) as Hnd'.
  unfold trade_record in Hrec.
  assert (forall c v, (c, v) ∈ data -> c ∈ data.*1) as Hkey.
  { intros c v Hin. apply list_elem_of_fmap. now exists (c, v). }
  unfold append_frame, kept_rows. destruct (df_empty df) eqn:He.
  - cbn [frame_of_record columns rows].
    split; [exact Hnd'|].
    split; [apply df_empty_false; cbn [frame_of_record columns rows];
            [rewrite Hrec|]; discriminate|].
    split; [reflexivity|].
    split; [discriminate|]. split; [exact Hkey|]. split; [intros; lia|].
    exists data.*2. split; [reflexivity|].
    intros c v Hin. rewrite (cell_of_record _ _ _ Hnd' Hin). apply upcast_refl.
  - destruct (concat_record df data Hnd Hnd') as (Hcols & Hu & Hlen & Hprior & Hlast).
    split; [exact Hu|]. split; [|split; [exact Hlen|]].
    + apply df_empty_false.
      * rewrite Hcols, Hrec. intros Hnil. apply app_eq_nil in Hnil as [Hnil Hf].
        rewrite Hnil in Hf. discriminate Hf.
      * intros Hnil. rewrite Hnil in Hlen. discriminate Hlen.
    + split; [|split; [|split]].
      * intros c _ Hc. rewrite Hcols. apply union_columns_elem. now left.
      * intros c v Hin. rewrite Hcols. apply union_columns_elem. right. eauto.
      * intros i row c _ Hi Hc. destruct (Hprior i row Hi) as (row' & Hrow' & Hup & _).
        exists row'. split; [exact Hrow' | now apply Hup].
      * destruct Hlast as (last & Hlast & Hcells & _). now exists last.
Qed.

(** *** Records appended one after the other *)




(** ** The handler when the lookup fails *)

(** C4.  When the lookup runs for a submission with valid prices and
    anything in it raises, the call returns the tuple [(0, "-", "데이터 없음")],
    and the submission is saved all the same: the file is rewritten with
    the frame that [save_data] builds from the loaded one, which has one
    row more than it keeps of the loaded frame; that last row holds the
    entry time, the ticker, the position, the rounded percentage and the
    result of the trade, the leverage and the ratio (as they are, or as
    floats when their column is one), and under the three labels of the
    context the index 0 (or 0.0 in a float column), the text "-" and the
    text "데이터 없음".  A sentiment feed that cannot be reached has this
    effect whatever the price feed would answer. *)
Theorem lookup_failure_never_blocks (now : Z) (net : network) (st : state Content) (f : form)
    (l : float) (e : exn) (df : DataFrame) :
  float_gt_int (entry_price f) 0 = true -> float_gt_int (exit_price f) 0 = true ->
  float_of_int (leverage f) = Ok l ->
  cache_hit now (cache st) (date f) = None ->
  lookup net (date f) = Raise e ->
  load_data (file st) = Ok df -> NoDup (columns df) ->
  get_market_context_uncached net (date f) = Ok (0, PStr "-", "데이터 없음") /\
  (exists m final last,
     compute (position f) (entry_price f) (exit_price f)
             (stop_loss f) (take_profit f) (leverage f) = Ok m /\
     final = (if df_empty df
              then frame_of_record (trade_data f m (0, PStr "-", "데이터 없음"))
              else concat df (frame_of_record (trade_data f m (0, PStr "-", "데이터 없음")))) /\
     submit now net st f =
       Ok ({| file := Some (to_csv final);
              cache := <[date f := {| cached := (0, PStr "-", "데이터 없음");
                                      stored_at := now |}]> (cache st) |},
           Saved m (0, PStr "-", "데이터 없음")) /\
     length (rows final) = S (kept_rows df) /\
     rows final !! kept_rows df = Some last /\
     cell (columns final) last "진입일시" = PDatetime (date f) (time f) /\
     cell (columns final) last "종목" = PStr (ticker f) /\
     cell (columns final) last "포지션" = PStr (position f) /\
     upcast (PInt (leverage f)) (cell (columns final) last "레버리지") /\
     cell (columns final) last "수익률(%)" = PFloat (round2 (pnl_rate m)) /\
     cell (columns final) last "결과" = PStr (pnl_status m) /\
     upcast (num_val (num_round2 (rr_ratio m))) (cell (columns final) last "손익비") /\
     (cell (columns final) last "공포지수" = PInt 0 \/
      cell (columns final) last "공포지수" = PFloat (S754_zero false)) /\
     cell (columns final) last "시장심리" = PStr "-" /\
     cell (columns final) last "비트추세" = PStr "데이터 없음") /\
  (forall yf target_date,
     get_market_context_uncached
       {| requests_get := fun _ => Raise e; yf_download := yf |} target_date
     = Ok (0, PStr "-", "데이터 없음")).
Proof.
  intros He Hx Hl Hmiss Hraise Hdf Hnd.
  pose proof (lookup_raise_defaults _ _ _ Hraise) as Hdef.
  split; [exact Hdef|]. split; [|reflexivity].
  destruct (compute_total (position f) _ (exit_price f) (stop_loss f) (take_profit f) _ _ He Hl)
    as [p Hm].
  match type of Hm with _ = Ok ?x => set (m := x) in Hm end.
  destruct (append_frame_step df (trade_data f m (0, PStr "-", "데이터 없음")) Hnd
              (trade_data_record _ _ _))
    as (_ & _ & Hlen & _ & _ & _ & last & Hlast & Hcells).
  exists m, (append_frame df (trade_data f m (0, PStr "-", "데이터 없음"))), last.
  split; [exact Hm|]. split; [reflexivity|]. split.
  { apply (submit_saved _ _ _ _ _ _ _ _ He Hx Hm); [|exact Hdf].
    apply get_market_context_miss; assumption. }
  split; [exact Hlen|]. split; [exact Hlast|].
  assert (forall c v, (c, v) ∈ trade_data f m (0, PStr "-", "데이터 없음") ->
            upcast v (cell (columns (append_frame df (trade_data f m (0, PStr "-", "데이터 없음"))))
                           last c)) as Hcell by exact Hcells.
  clear Hcells Hlast Hlen.
  repeat split.
  - apply upcast_datetime, Hcell. cbn [trade_data]. set_solver.
  - apply upcast_str, Hcell. cbn [trade_data]. set_solver.
  - apply upcast_str, Hcell. cbn [trade_data]. set_solver.
  - apply Hcell. cbn [trade_data]. set_solver.
  - apply upcast_float, Hcell. cbn [trade_data]. set_solver.
  - apply upcast_str, Hcell. cbn [trade_data]. set_solver.
  - apply Hcell. cbn [trade_data]. set_solver.
  - apply upcast_zero, Hcell. cbn [trade_data]. set_solver.
  - apply upcast_str, Hcell. cbn [trade_data]. set_solver.
  - apply upcast_str, Hcell. cbn [trade_data]. set_solver.
Qed.

(** ** Appending and loading back *)


(** * Further properties *)

(** ** Signs of float results *)

Lemma binary_round_aux_sign (s : bool) (m e : Z) (l : location) :
  has_sign s (binary_round_aux prec emax s m e l).
Proof.
  unfold binary_round_aux.
  destruct (shr_fexp prec emax m e l) as [mrs' e'].
  destruct (shr_fexp prec emax _ e' loc_Exact) as [mrs'' e''].
  destruct (shr_m mrs'') as [| p | p]; simpl; [reflexivity | | exact I].
  destruct (e'' <=? emax - prec); reflexivity.
Qed.

Lemma binary_round_aux_opp (s : bool) (m e : Z) (l : location) :
  binary_round_aux prec emax (negb s) m e l = SFopp (binary_round_aux prec emax s m e l).
Proof.
  unfold binary_round_aux.
  destruct (shr_fexp prec emax m e l) as [mrs' e'].
  destruct (shr_fexp prec emax _ e' loc_Exact) as [mrs'' e''].
  destruct (shr_m mrs'') as [| p | p]; simpl; [reflexivity | | reflexivity].
  destruct (e'' <=? emax - prec); reflexivity.
Qed.

Lemma binary_normalize_opp (z e : Z) :
  z <> 0 ->
  binary_normalize prec emax (- z) e false = SFopp (binary_normalize prec emax z e false).
Proof.
  intros Hz. destruct z as [| p | p]; [contradiction | |]; simpl;
    unfold binary_round; destruct (shl_align _ _ _) as [mz ez].
  - apply (binary_round_aux_opp false).
  - change false with (negb true) at 1. rewrite (binary_round_aux_opp true).
    now destruct (binary_round_aux prec emax true (Z.pos mz) ez loc_Exact) as [[]|[]| |[]].
Qed.

Lemma has_sign_positive_not_lt (x : float) : has_sign false x -> float_lt_int x 0 = false.
Proof.
  destruct x as [s | s | | s m e]; simpl; intros H; try subst s; try reflexivity.
  unfold float_lt_int, compare_float_int.
  destruct (0 <=? e) eqn:He.
  - apply Z.leb_le in He.
    assert (0 < Z.pos m * 2 ^ e) as Hpos by (apply Z.mul_pos_pos; [lia | apply Z.pow_pos_nonneg; lia]).
    destruct (Z.compare_spec (Z.pos m * 2 ^ e) 0); (reflexivity || lia).
  - reflexivity.
Qed.

Lemma has_sign_negative_not_gt (x : float) : has_sign true x -> float_gt_int x 0 = false.
Proof.
  destruct x as [s | s | | s m e]; simpl; intros H; try subst s; try reflexivity.
  unfold float_gt_int, compare_float_int.
  destruct (0 <=? e) eqn:He.
  - apply Z.leb_le in He.
    assert (0 < 2 ^ e) as Hpos by (apply Z.pow_pos_nonneg; lia).
    destruct (Z.compare_spec (Z.neg m * 2 ^ e) 0); (reflexivity || nia).
  - reflexivity.
Qed.

Lemma gt_zero_has_sign (x : float) : float_gt_int x 0 = true -> has_sign false x.
Proof.
  destruct x as [s | s | | s m e]; simpl; intros H.
  - discriminate H.
  - now destruct s.
  - exact I.
  - destruct s; [|reflexivity].
    now rewrite (has_sign_negative_not_gt (S754_finite true m e) eq_refl) in H.
Qed.

Lemma lt_zero_has_sign (x : float) : float_lt_int x 0 = true -> has_sign true x.
Proof.
  destruct x as [s | s | | s m e]; simpl; intros H.
  - discriminate H.
  - now destruct s.
  - exact I.
  - destruct s; [reflexivity|].
    now rewrite (has_sign_positive_not_lt (S754_finite false m e) eq_refl) in H.
Qed.

Lemma finite_positive_gt (m : positive) (e : Z) :
  float_gt_int (S754_finite false m e) 0 = true.
Proof.
  unfold float_gt_int, compare_float_int.
  destruct (0 <=? e) eqn:He; [|reflexivity].
  apply Z.leb_le in He.
  assert (0 < Z.pos m * 2 ^ e) as Hpos by (apply Z.mul_pos_pos; [lia | apply Z.pow_pos_nonneg; lia]).
  destruct (Z.compare_spec (Z.pos m * 2 ^ e) 0); (reflexivity || lia).
Qed.

Lemma finite_negative_lt (m : positive) (e : Z) :
  float_lt_int (S754_finite true m e) 0 = true.
Proof.
  unfold float_lt_int, compare_float_int.
  destruct (0 <=? e) eqn:He; [|reflexivity].
  apply Z.leb_le in He.
  assert (0 < 2 ^ e) as Hpos by (apply Z.pow_pos_nonneg; lia).
  destruct (Z.compare_spec (Z.neg m * 2 ^ e) 0); (reflexivity || nia).
Qed.

(** Rounding to two decimals keeps the sign bit. *)
Lemma round2_sign (s : bool) (x : float) : has_sign s x -> has_sign s (round2 x).
Proof.
  destruct x as [s' | s' | | s' m e]; simpl; try easy.
  intros ->. unfold float_of_ratio.
  destruct (SFdiv_core_binary _ _ _ _ _ _) as [[mz ez] lz].
  apply binary_round_aux_sign.
Qed.

Lemma round2_gt_zero (x : float) : float_gt_int (round2 x) 0 = true -> float_gt_int x 0 = true.
Proof.
  intros H. destruct x as [s | s | | [] m e]; try exact H.
  - pose proof (round2_sign true (S754_finite true m e) eq_refl) as Hs.
    now rewrite (has_sign_negative_not_gt _ Hs) in H.
  - apply finite_positive_gt.
Qed.

Lemma round2_lt_zero (x : float) : float_lt_int (round2 x) 0 = true -> float_lt_int x 0 = true.
Proof.
  intros H. destruct x as [s | s | | [] m e]; try exact H.
  - apply finite_negative_lt.
  - pose proof (round2_sign false (S754_finite false m e) eq_refl) as Hs.
    now rewrite (has_sign_positive_not_lt _ Hs) in H.
Qed.

Lemma lt_zero_not_gt (x : float) : float_lt_int x 0 = true -> float_gt_int x 0 = false.
Proof.
  unfold float_lt_int, float_gt_int.
  destruct (compare_float_int x 0) as [[]|]; congruence.
Qed.

Lemma fabs_sign (x : float) : has_sign false (fabs x).
Proof. now destruct x. Qed.

Lemma fdiv_sign (sx sy : bool) (x y : float) :
  has_sign sx x -> has_sign sy y -> has_sign (xorb sx sy) (fdiv x y).
Proof.
  destruct x as [s | s | | s m e], y as [s' | s' | | s' m' e']; simpl;
    try easy; try (intros -> ->; reflexivity).
  intros -> ->. destruct (SFdiv_core_binary _ _ _ _ _ _) as [[mz ez] lz].
  apply binary_round_aux_sign.
Qed.

Lemma nought_not_gt (x : float) : nought x = true -> float_gt_int x 0 = false.
Proof. now destruct x. Qed.

Lemma fdiv_opp_l (x y : float) : fdiv (SFopp x) y = SFopp (fdiv x y).
Proof.
  destruct x as [s | s | | s m e], y as [s' | s' | | s' m' e']; simpl;
    try reflexivity; try (now destruct s, s').
  destruct (SFdiv_core_binary _ _ _ _ _ _) as [[mz ez] lz].
  rewrite <- binary_round_aux_opp. now destruct s, s'.
Qed.

Lemma fmul_opp_l (x y : float) : fmul (SFopp x) y = SFopp (fmul x y).
Proof.
  destruct x as [s | s | | s m e], y as [s' | s' | | s' m' e']; simpl;
    try reflexivity; try (now destruct s, s').
  rewrite <- binary_round_aux_opp. now destruct s, s'.
Qed.

Lemma fdiv_nought (x y : float) : nought x = true -> nought (fdiv x y) = true.
Proof. destruct x, y; simpl; congruence. Qed.

Lemma fmul_nought (x y : float) : nought x = true -> nought (fmul x y) = true.
Proof. destruct x, y; simpl; congruence. Qed.

Lemma mirrored_div (x y d : float) : mirrored x y -> mirrored (fdiv x d) (fdiv y d).
Proof.
  intros [-> | [Hx Hy]]; [left; apply fdiv_opp_l | right].
  split; now apply fdiv_nought.
Qed.

Lemma mirrored_mul (x y d : float) : mirrored x y -> mirrored (fmul x d) (fmul y d).
Proof.
  intros [-> | [Hx Hy]]; [left; apply fmul_opp_l | right].
  split; now apply fmul_nought.
Qed.

(** Swapping the operands of a subtraction mirrors the difference. *)
Lemma fsub_mirrored (a b : float) : mirrored (fsub a b) (fsub b a).
Proof.
  destruct a as [sa | sa | | sa ma ea], b as [sb | sb | | sb mb eb];
    try (destruct sa, sb; simpl; (left; reflexivity) || (right; split; reflexivity));
    try (destruct sa; simpl; (left; reflexivity) || (right; split; reflexivity));
    try (destruct sb; simpl; (left; reflexivity) || (right; split; reflexivity));
    try (right; split; reflexivity).
  unfold fsub, SFsub. rewrite (Z.min_comm eb ea).
  set (ez := Z.min ea eb).
  set (A := cond_Zopp sa (Z.pos (shl_align ma ea ez).1)).
  set (B := cond_Zopp sb (Z.pos (shl_align mb eb ez).1)).
  replace (B - A) with (- (A - B)) by lia.
  destruct (Z.eq_dec (A - B) 0) as [-> | Hne].
  - right. split; reflexivity.
  - left. now apply binary_normalize_opp.
Qed.

Lemma mirrored_gt (p q : float) :
  mirrored p q -> float_gt_int p 0 = true ->
  q = SFopp p /\ float_gt_int q 0 = false.
Proof.
  intros [-> | [Hp _]] Hgt.
  - split; [reflexivity|]. apply has_sign_negative_not_gt.
    pose proof (gt_zero_has_sign p Hgt) as Hs.
    destruct p as [s | s | | s m e]; simpl in *; try subst s; try reflexivity.
  - now rewrite (nought_not_gt p Hp) in Hgt.
Qed.

Lemma mirrored_self (p : float) : mirrored p p -> nought p = true.
Proof.
  intros [H | [H _]]; [|exact H].
  destruct p as [s | s | | s m e]; try reflexivity; simpl in H;
    injection H; now destruct s.
Qed.

(** ** The two sides of a trade *)

(** The percentages of the two sides are mirrored. *)
Lemma spec_pnl_mirrored (entry exit l : float) :
  mirrored (spec_pnl_long entry exit l) (spec_pnl_short entry exit l).
Proof.
  unfold spec_pnl_long, spec_pnl_short.
  apply mirrored_mul, mirrored_mul, mirrored_div, fsub_mirrored.
Qed.

Lemma mirrored_sym (x y : float) : mirrored x y -> mirrored y x.
Proof.
  intros [-> | [Hx Hy]]; [left | right; now split].
  now destruct x as [[] | [] | | [] m e].
Qed.

(** What the first six lines of the computation return, when they return. *)
Lemma profit_eq (position : string) (entry exit : float) (lev : Z) (l : float) :
  is_zero entry = false -> float_of_int lev = Ok l ->
  profit position entry exit lev =
    Ok (if contains "Long" position
        then (spec_pnl_long entry exit l, spec_result (spec_pnl_long entry exit l))
        else (spec_pnl_short entry exit l, spec_result (spec_pnl_short entry exit l))).
Proof.
  intros Hz Hl. unfold profit, float_truediv. rewrite Hz.
  destruct (contains "Long" position);
    now rewrite !bind_Ok, (float_mul_int_ok _ _ _ Hl), bind_Ok, float_mul_int_100, bind_Ok.
Qed.

Lemma profit_ok_inv (position : string) (entry exit : float) (lev : Z) (p : float) (s : string) :
  profit position entry exit lev = Ok (p, s) ->
  is_zero entry = false /\ exists l, float_of_int lev = Ok l.
Proof.
  unfold profit, float_truediv. intros H.
  destruct (is_zero entry); [now destruct (contains "Long" position)|].
  split; [reflexivity|].
  destruct (float_of_int lev) as [l|e] eqn:Hl; [now exists l|].
  unfold float_mul_int in H. rewrite Hl in H.
  now destruct (contains "Long" position).
Qed.

Lemma profit_mirror (position position' : string) (entry exit : float) (lev : Z) (p : float) :
  contains "Long" position' = negb (contains "Long" position) ->
  profit position entry exit lev = Ok (p, "Win") ->
  profit position' entry exit lev = Ok (SFopp p, "Lose").
Proof.
  intros Hside Hwin.
  destruct (profit_ok_inv _ _ _ _ _ _ Hwin) as (Hz & l & Hl).
  rewrite (profit_eq _ _ _ _ _ Hz Hl) in Hwin.
  rewrite (profit_eq _ _ _ _ _ Hz Hl), Hside.
  pose proof (spec_pnl_mirrored entry exit l) as Hm.
  destruct (contains "Long" position); simpl negb; cbv iota;
    injection Hwin as Hp Hs; unfold spec_result in Hs |- *.
  - destruct (float_gt_int (spec_pnl_long entry exit l) 0) eqn:Hgt; [|discriminate].
    destruct (mirrored_gt _ _ Hm Hgt) as [-> ->]. now rewrite Hp.
  - destruct (float_gt_int (spec_pnl_short entry exit l) 0) eqn:Hgt; [|discriminate].
    destruct (mirrored_gt _ _ (mirrored_sym _ _ Hm) Hgt) as [-> ->]. now rewrite Hp.
Qed.

(** X2.  A price move that is a Win on one side is a Lose on the other, with
    the opposite percentage: Long and Short are never both a Win. *)
Theorem long_short_opposite (entry exit : float) (lev : Z) (p : float) :
  (profit "Long" entry exit lev = Ok (p, "Win") ->
   profit "Short" entry exit lev = Ok (SFopp p, "Lose")) /\
  (profit "Short" entry exit lev = Ok (p, "Win") ->
   profit "Long" entry exit lev = Ok (SFopp p, "Lose")).
Proof. split; apply profit_mirror; reflexivity. Qed.

(** X10.  A trade closed at its entry price is a Lose on either side, for any
    valid entry price and leverage: its percentage is a zero (or a NaN, for an
    infinite price), never above zero. *)
Theorem break_even_is_lose (position : string) (entry : float) (lev : Z) (l : float) :
  float_gt_int entry 0 = true -> float_of_int lev = Ok l ->
  exists p, profit position entry entry lev = Ok (p, "Lose") /\ nought p = true.
Proof.
  intros Hentry Hl.
  rewrite (profit_eq _ _ _ _ _ (gt_zero_not_zero _ Hentry) Hl).
  pose proof (mirrored_self _ (spec_pnl_mirrored entry entry l)) as Hn.
  change (spec_pnl_short entry entry l) with (spec_pnl_long entry entry l).
  exists (spec_pnl_long entry entry l). split; [|exact Hn].
  unfold spec_result. rewrite (nought_not_gt _ Hn). now destruct (contains "Long" position).
Qed.

(** X8.  The stored percentage never contradicts the stored result: rounded
    to two decimals, a percentage above zero belongs to a Win and one below
    zero to a Lose. *)
Theorem stored_percentage_agrees (position : string) (entry exit stop take : float)
    (lev : Z) (l : float) :
  float_gt_int entry 0 = true -> float_gt_int exit 0 = true ->
  float_of_int lev = Ok l ->
  exists m, compute position entry exit stop take lev = Ok m /\
    (float_gt_int (round2 (pnl_rate m)) 0 = true -> pnl_status m = "Win") /\
    (float_lt_int (round2 (pnl_rate m)) 0 = true -> pnl_status m = "Lose").
Proof.
  intros Hentry _ Hl.
  destruct (compute_total position entry exit stop take lev l Hentry Hl) as [p Hm].
  eexists. split; [exact Hm|]. simpl. unfold spec_result. split; intros H.
  - now rewrite (round2_gt_zero _ H).
  - now rewrite (lt_zero_not_gt _ (round2_lt_zero _ H)).
Qed.

Lemma spec_risk_sign (entry stop : float) :
  num_lt_int (spec_risk entry stop) 0 = false /\ has_sign false (num_float (spec_risk entry stop)).
Proof.
  unfold spec_risk. destruct (float_gt_int stop 0); simpl; [|now split].
  split; [apply has_sign_positive_not_lt|]; apply fabs_sign.
Qed.

Lemma spec_reward_sign (entry take : float) :
  num_lt_int (spec_reward entry take) 0 = false /\ has_sign false (num_float (spec_reward entry take)).
Proof.
  unfold spec_reward. destruct (float_gt_int take 0); simpl; [|now split].
  split; [apply has_sign_positive_not_lt|]; apply fabs_sign.
Qed.

(** X9.  For every input, the risk, the reward and their ratio are never
    below zero, and neither is the ratio that is stored, rounded to two
    decimals. *)
Theorem risk_reward_never_negative (entry stop take : float) :
  exists r w rr,
    risk_reward entry stop take = Ok (r, w, rr) /\
    num_lt_int r 0 = false /\ num_lt_int w 0 = false /\
    num_lt_int rr 0 = false /\ num_lt_int (num_round2 rr) 0 = false.
Proof.
  eexists _, _, _. split; [apply risk_reward_eq|].
  destruct (spec_risk_sign entry stop) as [Hr Hrs].
  destruct (spec_reward_sign entry take) as [Hw Hws].
  split; [exact Hr|]. split; [exact Hw|].
  unfold spec_ratio. destruct (num_gt_int (spec_risk entry stop) 0); [|now split].
  pose proof (fdiv_sign _ _ _ _ Hws Hrs) as Hq. simpl in Hq. simpl. split.
  - now apply has_sign_positive_not_lt.
  - now apply has_sign_positive_not_lt, round2_sign.
Qed.

(** ** The lookup, all or nothing *)

Lemma date_add_inv (d n r : Z) : date_add d n = Ok r -> r = d + n.
Proof. unfold date_add. destruct (_ && _); [now intros [= <-] | discriminate]. Qed.

Lemma lookup_ok_inv (net : network) (target_date : Z) (ctx : context) :
  lookup net target_date = Ok ctx ->
  exists fng_data v c btc,
    serves net fng_data /\ fear_greed fng_data target_date = Ok (v, c) /\
    yf_download net "BTC-USD" target_date (target_date + 2) = Ok btc /\
    ctx = (v, c, trend btc).
Proof.
  unfold lookup. intros H.
  apply bind_Ok_inv in H as (resp & Hget & H).
  apply bind_Ok_inv in H as (body & Hjson & H).
  apply bind_Ok_inv in H as (fng_data & Hdata & H).
  apply bind_Ok_inv in H as ([v c] & Hfg & H).
  apply bind_Ok_inv in H as (stop & Hstop & H).
  apply bind_Ok_inv in H as (btc & Hbtc & H).
  apply date_add_inv in Hstop as ->. injection H as <-.
  exists fng_data, v, c, btc. repeat split; try assumption.
  now exists resp, body.
Qed.

Lemma trend_labels (btc : list candle) :
  trend btc = "-" \/ trend btc = "양봉(상승)" \/ trend btc = "음봉(하락)".
Proof.
  destruct btc as [| row rest]; simpl; [now left|].
  destruct (float_gt _ _); auto.
Qed.

(** X3.  A call of the undecorated function returns either the tuple of the
    [except] branch, or a value and a label read from the sentiment feed
    together with a trend read from the candles of the target day and the
    next: never a part of one and a part of the other.  The trend "데이터 없음"
    marks exactly the calls whose lookup raised. *)
Theorem lookup_all_or_nothing (net : network) (target_date : Z) :
  exists v c t,
    get_market_context_uncached net target_date = Ok (v, c, t) /\
    ((raises (lookup net target_date) /\ (v, c, t) = no_context) \/
     (exists fng_data btc,
        serves net fng_data /\ fear_greed fng_data target_date = Ok (v, c) /\
        yf_download net "BTC-USD" target_date (target_date + 2) = Ok btc /\
        t = trend btc)) /\
    (t = "데이터 없음" <-> raises (lookup net target_date)).
Proof.
  unfold get_market_context_uncached.
  destruct (lookup net target_date) as [ctx | e] eqn:Hl.
  - destruct (lookup_ok_inv _ _ _ Hl) as (fng_data & v & c & btc & Hs & Hf & Hy & ->).
    exists v, c, (trend btc). split; [reflexivity|]. split.
    + right. now exists fng_data, btc.
    + split; [|intros [e He]; discriminate].
      intros Ht. destruct (trend_labels btc) as [H | [H | H]]; rewrite H in Ht; discriminate.
  - exists 0, (PStr "-"), "데이터 없음". split; [reflexivity|]. split.
    + left. split; [now exists e | reflexivity].
    + split; [now exists e | reflexivity].
Qed.

Lemma find_reading_raise (pre post : list pyval) (item : pyval) (target_date : Z) (e : exn) :
  Forall (other_day target_date) pre ->
  item_date item = Raise e \/ (item_date item = Ok target_date /\ item_reading item = Raise e) ->
  find_reading (pre ++ item :: post) target_date = Raise e.
Proof.
  intros Hpre Hbad. rewrite (find_reading_skip _ _ _ Hpre). simpl.
  destruct Hbad as [-> | [-> Hr]]; [reflexivity|].
  now rewrite bind_Ok, Z.eqb_refl, Hr.
Qed.

(** X4.  The loop reads the items in order and stops at the first one of the
    target day.  An item before it that has no readable day, or an item of
    the target day whose value or label does not read, makes the whole
    lookup return the default tuple, whatever follows in the series and
    whatever the price feed answers. *)
Theorem unreadable_item_defaults (net : network) (target_date : Z)
    (pre post : list pyval) (item : pyval) (e : exn) :
  serves net (PList (pre ++ item :: post)) ->
  Forall (other_day target_date) pre ->
  item_date item = Raise e \/ (item_date item = Ok target_date /\ item_reading item = Raise e) ->
  get_market_context_uncached net target_date = Ok no_context.
Proof.
  intros Hs Hpre Hbad. apply (lookup_raise_defaults _ _ e).
  rewrite (lookup_served _ _ _ Hs). unfold fear_greed. simpl iterate.
  now rewrite bind_Ok, (find_reading_raise _ _ _ _ _ Hpre Hbad).
Qed.

Lemma fear_greed_not_list (fng_data : pyval) (target_date : Z) :
  (forall l, fng_data <> PList l) -> raises (fear_greed fng_data target_date).
Proof.
  intros Hnl. unfold fear_greed.
  destruct fng_data as [| b | z | f | s | l | d | day t |];
    try (now exists TypeError).
  - destruct s as [| ch rest]; [now exists IndexError | now exists TypeError].
  - now contradiction (Hnl l).
  - destruct d as [| [k v] rest]; [now exists KeyError | now exists TypeError].
Qed.

(** X5.  When what the sentiment feed holds under "data" is not a list (null,
    a number, a string, an object), the call returns the default tuple. *)
Theorem data_not_a_list_defaults (net : network) (target_date : Z) (fng_data : pyval) :
  serves net fng_data -> (forall l, fng_data <> PList l) ->
  get_market_context_uncached net target_date = Ok no_context.
Proof.
  intros Hs Hnl. destruct (fear_greed_not_list fng_data target_date Hnl) as [e He].
  apply (lookup_raise_defaults _ _ e).
  now rewrite (lookup_served _ _ _ Hs), He.
Qed.

(** ** The memo and failures *)

Lemma cache_hit_entry (now : Z) (cache : gmap Z cache_entry) (target_date : Z) (e : cache_entry) :
  cache !! target_date = Some e ->
  cache_hit now cache target_date = if now <? stored_at e + ttl then Some (cached e) else None.
Proof. intros H. unfold cache_hit. now rewrite H. Qed.

(** X6.  A lookup that raised is remembered like any other: for less than
    3600 seconds every call for that date returns the default tuple, also
    when the feeds answer again; from 3600 seconds on the next call runs the
    lookup anew and its result replaces the entry. *)
Theorem failure_is_cached (now0 : Z) (net0 : network) (cache : gmap Z cache_entry)
    (target_date : Z) (e : exn) :
  cache_hit now0 cache target_date = None ->
  lookup net0 target_date = Raise e ->
  let cache1 := <[target_date := {| cached := no_context; stored_at := now0 |}]> cache in
  get_market_context now0 net0 cache target_date = Ok (cache1, no_context) /\
  (forall now1 net1, now1 < now0 + 3600 ->
     get_market_context now1 net1 cache1 target_date = Ok (cache1, no_context)) /\
  (forall now2 net2 ctx, now0 + 3600 <= now2 ->
     get_market_context_uncached net2 target_date = Ok ctx ->
     get_market_context now2 net2 cache1 target_date =
       Ok (<[target_date := {| cached := ctx; stored_at := now2 |}]> cache1, ctx)).
Proof.
  intros Hmiss Hraise cache1.
  assert (cache1 !! target_date = Some {| cached := no_context; stored_at := now0 |}) as Hentry
    by apply lookup_insert_eq.
  split; [|split].
  - apply get_market_context_miss; [exact Hmiss | exact (lookup_raise_defaults _ _ _ Hraise)].
  - intros now1 net1 Hlt. apply get_market_context_hit.
    rewrite (cache_hit_entry _ _ _ _ Hentry). simpl.
    replace (now1 <? now0 + ttl) with true; [reflexivity|].
    symmetry. apply Z.ltb_lt. exact Hlt.
  - intros now2 net2 ctx Hge Hrun. apply get_market_context_miss; [|exact Hrun].
    rewrite (cache_hit_entry _ _ _ _ Hentry). simpl.
    replace (now2 <? now0 + ttl) with false; [reflexivity|].
    symmetry. apply Z.ltb_ge. exact Hge.
Qed.

(** ** The handler and the file *)

Lemma not_above_zero (x : float) :
  float_gt_int x 0 = false <-> nought x = true \/ has_sign true x.
Proof.
  split.
  - intros H. destruct x as [s | [] | | [] m e]; simpl; auto; try discriminate H.
    now rewrite finite_positive_gt in H.
  - intros [H | H]; [now apply nought_not_gt | now apply has_sign_negative_not_gt].
Qed.

(** X1.  A form whose leverage is one the number input can hold is either
    saved or rejected, and it is rejected exactly when its entry price or
    its exit price is not above zero (a zero, the default of the input; a
    negative number; a NaN).  A rejected form changes neither the file nor
    the memo, whatever the feeds would answer. *)
Theorem rejected_iff_price_not_above_zero (now : Z) (net : network) (st : state Content) (f : form) :
  1 <= leverage f <= 2 ^ 53 - 1 ->
  exists st' o,
    submit now net st f = Ok (st', o) /\
    (o = PricesMissing <->
     (nought (entry_price f) = true \/ has_sign true (entry_price f)) \/
     (nought (exit_price f) = true \/ has_sign true (exit_price f))) /\
    (o = PricesMissing -> st' = st).
Proof.
  intros Hlev.
  destruct (float_gt_int (entry_price f) 0 && float_gt_int (exit_price f) 0) eqn:Hv.
  - apply andb_true_iff in Hv as [He Hx].
    destruct (submit_total_leverage now net st f He Hx Hlev) as (st' & m & ctx & Hs).
    exists st', (Saved m ctx). split; [exact Hs|]. split; [|discriminate].
    split; [discriminate|]. intros [H | H]; apply not_above_zero in H; congruence.
  - exists st, PricesMissing. split; [now apply submit_prices_missing|].
    split; [|reflexivity]. split; [|reflexivity]. intros _.
    apply andb_false_iff in Hv as [H | H]; apply not_above_zero in H; auto.
Qed.


(** ** Appending to a frame with other labels *)

End App.

(** * The sample world *)

(** ** Witnesses *)

Lemma pnl_rate_formula_witness :
  pnl_rate <$> compute "Long" (decimal 100 0) (decimal 110 0) (decimal 0 0) (decimal 0 0) 2
    = Ok (decimal 20 0) /\
  pnl_rate <$> compute "Short" (decimal 100 0) (decimal 110 0) (decimal 0 0) (decimal 0 0) 2
    = Ok (decimal (-20) 0).
Proof.
  exact (pnl_rate_formula (decimal 100 0) (decimal 110 0) (decimal 0 0) (decimal 0 0)
           2 (decimal 2 0) eq_refl eq_refl eq_refl).
Defined.

Lemma result_win_iff_positive_witness :
  exists m, compute "Short" (decimal 100 0) (decimal 90 0) (decimal 105 0) (decimal 80 0) 1 = Ok m /\
    (pnl_status m = "Win" <-> float_gt_int (pnl_rate m) 0 = true) /\
    (pnl_status m = "Lose" <-> float_gt_int (pnl_rate m) 0 = false) /\
    (float_eq_int (pnl_rate m) 0 = true -> pnl_status m = "Lose").
Proof.
  exact (result_win_iff_positive "Short" (decimal 100 0) (decimal 90 0) (decimal 105 0)
           (decimal 80 0) 1 (decimal 1 0) eq_refl eq_refl eq_refl).
Defined.

Lemma lookup_failure_never_blocks_witness :
  get_market_context_uncached sample_int_of_str utc_date
    (sentiment_down sample_btc) (date sample_form) = Ok (0, PStr "-", "데이터 없음") /\
  exists st' m,
    submit sample_int_of_str utc_date csv_file csv_write csv_read csv_to_datetime
      sample_now (sentiment_down sample_btc) journal_state sample_form
    = Ok (st', Saved m (0, PStr "-", "데이터 없음")) /\
    file st' =
      Some [ trade_columns;
             ["2024-01-01 10:00:00"; "BTC/USDT"; "Long"; "2"; "20.0"; "Win"; "0"; "65";
              "Greed"; "양봉(상승)"];
             ["2024-01-01 10:00:00"; "BTC/USDT"; "Long"; "2"; "20.0"; "Win"; "0"; "0";
              "-"; "데이터 없음"] ].
Proof.
  destruct (lookup_failure_never_blocks sample_int_of_str utc_date csv_file csv_write
              csv_read csv_to_datetime sample_now (sentiment_down sample_btc)
              journal_state sample_form (decimal 2 0) OtherError journal_frame)
    as (Hdefault & (m & final & last & Hm & Hfinal & Hsubmit & _) & _).
  - reflexivity.
  - reflexivity.
  - reflexivity.
  - reflexivity.
  - reflexivity.
  - vm_compute. reflexivity.
  - apply (bool_decide_unpack (NoDup trade_columns)). vm_compute. reflexivity.
  - split; [exact Hdefault|].
    eexists _, m. split; [exact Hsubmit|].
    vm_compute in Hm. injection Hm as <-.
    rewrite Hfinal. vm_compute. reflexivity.
Defined.

Lemma sentiment_of_target_day_witness :
  get_market_context_uncached sample_int_of_str utc_date
    (feeds sample_items sample_btc) 738886 = Ok (65, PStr "Greed", "양봉(상승)") /\
  get_market_context_uncached sample_int_of_str utc_date
    (feeds sample_items sample_btc) 738000 = Ok (70, PStr "Greed", "양봉(상승)").
Proof.
  split.
  - refine (proj1 (sentiment_of_target_day sample_int_of_str utc_date
                     (feeds sample_items sample_btc) 738886 sample_items sample_btc _ _ eq_refl)
              [fng_item "1704240000" "70" "Greed"; fng_item "1704153600" "71" "Greed"]
              (fng_item "1704067200" "65" "Greed") [] 65 (PStr "Greed")
              eq_refl _ eq_refl eq_refl).
    + eexists _, _. repeat split; reflexivity.
    + unfold max_ordinal. lia.
    + repeat constructor; eexists; (split; [reflexivity | discriminate]).
  - refine (proj2 (sentiment_of_target_day sample_int_of_str utc_date
                     (feeds sample_items sample_btc) 738000 sample_items sample_btc _ _ eq_refl)
              (fng_item "1704240000" "70" "Greed")
              [fng_item "1704153600" "71" "Greed"; fng_item "1704067200" "65" "Greed"]
              70 (PStr "Greed") eq_refl _ eq_refl).
    + eexists _, _. repeat split; reflexivity.
    + unfold max_ordinal. lia.
    + repeat constructor; eexists; (split; [reflexivity | discriminate]).
Defined.

Lemma trend_of_first_candle_witness :
  exists t,
    get_market_context_uncached sample_int_of_str utc_date
      (feeds sample_items sample_btc) 738886 = Ok (65, PStr "Greed", t) /\
    t = "양봉(상승)".
Proof.
  destruct (trend_of_first_candle sample_int_of_str utc_date
              (feeds sample_items sample_btc) 738886 (PList sample_items) 65 (PStr "Greed")
              sample_btc) as (t & Hcall & Ht & _).
  - eexists _, _. repeat split; reflexivity.
  - reflexivity.
  - unfold max_ordinal. lia.
  - reflexivity.
  - exists t. split; [exact Hcall | exact Ht].
Defined.

Lemma load_data_never_raises_witness :
  load_data sample_file sample_read_csv sample_to_datetime (Some Garbled) = Ok empty_frame.
Proof.
  apply (proj1 (proj2 (load_data_never_raises sample_file sample_read_csv sample_to_datetime))).
  exists OtherError. reflexivity.
Defined.



Lemma cached_within_ttl_witness :
  exists ctx,
    get_market_context sample_int_of_str utc_date sample_now
      (feeds sample_items sample_btc) (cache fresh_state) 738886
    = Ok ({[ 738886 := {| cached := ctx; stored_at := sample_now |} ]}, ctx) /\
    get_market_context sample_int_of_str utc_date (sample_now + 3599)
      (sentiment_down []) {[ 738886 := {| cached := ctx; stored_at := sample_now |} ]} 738886
    = Ok ({[ 738886 := {| cached := ctx; stored_at := sample_now |} ]}, ctx).
Proof.
  destruct (cached_within_ttl sample_int_of_str utc_date sample_now
              (feeds sample_items sample_btc) (cache fresh_state) 738886 eq_refl)
    as (ctx & _ & Hfirst & Hentry & Hlater).
  exists ctx. split; [exact Hfirst|].
  apply Hlater; [exact Hentry | lia].
Defined.

(** ** Classification and rounding *)

(** C10.  The record takes its result from the percentage before rounding and
    stores the percentage rounded to two decimals after that; so a Long trade
    from 100 to 100.004 at leverage 1 is saved, and loaded back, as a Win with
    a stored percentage of 0.0. *)
Theorem win_with_zero_percentage :
  (forall position entry exit stop take lev m,
     compute position entry exit stop take lev = Ok m ->
     pnl_status m = spec_result (pnl_rate m)) /\
  (forall f m ctx,
     dict_get (trade_data f m ctx) "결과" = Some (PStr (pnl_status m)) /\
     dict_get (trade_data f m ctx) "수익률(%)" = Some (PFloat (round2 (pnl_rate m)))) /\
  (exists st' m ctx df row,
     float_gt_int (entry_price small_win) 0 = true /\
     float_gt_int (exit_price small_win) 0 = true /\
     submit sample_int_of_str utc_date sample_file Table sample_read_csv sample_to_datetime
       sample_now (feeds sample_items sample_btc) fresh_state small_win
     = Ok (st', Saved m ctx) /\
     float_gt_int (pnl_rate m) 0 = true /\
     load_data sample_file sample_read_csv sample_to_datetime (file st') = Ok df /\
     rows df = [row] /\
     cell (columns df) row "결과" = PStr "Win" /\
     cell (columns df) row "수익률(%)" = PFloat (S754_zero false)).
Proof.
  split; [exact compute_inv|]. split.
  - intros f m [[v c] t]. split; reflexivity.
  - eexists _, _, _, _, _. split; [reflexivity|]. split; [reflexivity|].
    split; [vm_compute; reflexivity|]. split; [reflexivity|].
    split; [vm_compute; reflexivity|]. split; [reflexivity|].
    split; vm_compute; reflexivity.
Qed.

(** ** Witnesses of the further properties *)

Lemma rejected_iff_price_not_above_zero_witness :
  exists st' o,
    submit sample_int_of_str utc_date sample_file Table sample_read_csv sample_to_datetime
      sample_now (feeds sample_items sample_btc) fresh_state sample_form = Ok (st', o) /\
    o <> PricesMissing.
Proof.
  destruct (rejected_iff_price_not_above_zero sample_int_of_str utc_date sample_file Table
              sample_read_csv sample_to_datetime sample_now (feeds sample_items sample_btc)
              fresh_state sample_form) as (st' & o & Hs & Hiff & _).
  - simpl. lia.
  - exists st', o. split; [exact Hs|]. intros Ho. apply Hiff in Ho.
    destruct Ho as [[H | H] | [H | H]]; discriminate H.
Defined.

Lemma long_short_opposite_witness :
  profit "Short" (decimal 100 0) (decimal 110 0) 2 = Ok (decimal (-20) 0, "Lose").
Proof.
  exact (proj1 (long_short_opposite (decimal 100 0) (decimal 110 0) 2 (decimal 20 0)) eq_refl).
Defined.

Lemma break_even_is_lose_witness :
  exists p, profit "Long" (decimal 100 0) (decimal 100 0) 3 = Ok (p, "Lose") /\ nought p = true.
Proof.
  exact (break_even_is_lose "Long" (decimal 100 0) 3 (decimal 3 0) eq_refl eq_refl).
Defined.

Lemma stored_percentage_agrees_witness :
  exists m, compute "Short" (decimal 100 0) (decimal 110 0) (decimal 0 0) (decimal 0 0) 2 = Ok m /\
    (float_gt_int (round2 (pnl_rate m)) 0 = true -> pnl_status m = "Win") /\
    (float_lt_int (round2 (pnl_rate m)) 0 = true -> pnl_status m = "Lose").
Proof.
  exact (stored_percentage_agrees "Short" (decimal 100 0) (decimal 110 0) (decimal 0 0)
           (decimal 0 0) 2 (decimal 2 0) eq_refl eq_refl eq_refl).
Defined.

Lemma unreadable_item_defaults_witness :
  get_market_context_uncached sample_int_of_str utc_date
    (feeds (fng_item "soon" "70" "Greed" :: sample_items) sample_btc) 738886 = Ok no_context.
Proof.
  apply (unreadable_item_defaults sample_int_of_str utc_date
           (feeds (fng_item "soon" "70" "Greed" :: sample_items) sample_btc) 738886
           [] sample_items (fng_item "soon" "70" "Greed") ValueError).
  - eexists _, _. repeat split; reflexivity.
  - constructor.
  - left. reflexivity.
Defined.

Lemma data_not_a_list_defaults_witness :
  get_market_context_uncached sample_int_of_str utc_date
    {| requests_get := fun _ => Ok {| json := Ok (PDict [("data", PNone)]) |};
       yf_download := fun _ _ _ => Ok sample_btc |} 738886 = Ok no_context.
Proof.
  apply (data_not_a_list_defaults sample_int_of_str utc_date _ 738886 PNone).
  - eexists _, _. repeat split; reflexivity.
  - discriminate.
Defined.

Lemma failure_is_cached_witness :
  get_market_context sample_int_of_str utc_date (sample_now + 3599)
    (feeds sample_items sample_btc)
    {[ 738886 := {| cached := no_context; stored_at := sample_now |} ]} 738886
  = Ok ({[ 738886 := {| cached := no_context; stored_at := sample_now |} ]}, no_context).
Proof.
  refine (proj1 (proj2 (failure_is_cached sample_int_of_str utc_date sample_now
                          (sentiment_down sample_btc) (cache fresh_state) 738886 OtherError
                          eq_refl eq_refl))
            (sample_now + 3599) (feeds sample_items sample_btc) _).
  lia.
Defined.


